(** * excel_graph_parser: the chart parser of [graph_parser.py]

    A shallow embedding of [ExcelImageParser] (src/excel_graph_parser/graph_parser.py)
    and the properties of its specification.

    Python strings are [string]; Python exceptions are the left side of a sum;
    the two observable effects of the class ([UserMessage.warning] and
    [wb.close()]) are recorded in an event log threaded through the
    computation.  The openpyxl object graph (workbook, sheet, chart, series)
    is data received from the library: it is modelled by records with the
    attributes the parser reads, an attribute that may be [None] being an
    [option]. *)

From Stdlib Require Import List Arith ZArith Lia Bool.
From Stdlib Require Import Strings.String Strings.Ascii Numbers.DecimalString.
From Stdlib Require Numbers.DecimalNat.
Import ListNotations.
Open Scope list_scope.
Open Scope string_scope.

(* ================================================================== *)
(** * Python string operations used by the parser *)
(* ================================================================== *)

Module PyStr.

(** [c in s] for a one-character string [c]. *)
Fixpoint contains (c : ascii) (s : string) : bool :=
  match s with
  | EmptyString => false
  | String a rest => if Ascii.eqb a c then true else contains c rest
  end.

(** The scan of [str.replace old new] for a non-empty [old]: left to right,
    non-overlapping.  [skip] counts the characters of a match that are
    still to be dropped. *)
Fixpoint replace_from (old new : string) (skip : nat) (s : string) : string :=
  match s with
  | EmptyString => EmptyString
  | String a rest =>
      match skip with
      | S k => replace_from old new k rest
      | O =>
          if prefix old s
          then new ++ replace_from old new (String.length old - 1) rest
          else String a (replace_from old new 0 rest)
      end
  end.

(** [str.replace] with an empty [old] puts [new] before every character
    and at the end. *)
Fixpoint interleave (new s : string) : string :=
  match s with
  | EmptyString => new
  | String a rest => new ++ String a (interleave new rest)
  end.

(** [s.replace(old, new)]. *)
Definition replace (old new s : string) : string :=
  match old with
  | EmptyString => interleave new s
  | String _ _ => replace_from old new 0 s
  end.

(** [s.split(sep)] for a one-character separator: never an empty list. *)
Fixpoint split (sep : ascii) (s : string) : list string :=
  match s with
  | EmptyString => [EmptyString]
  | String a rest =>
      if Ascii.eqb a sep then EmptyString :: split sep rest
      else match split sep rest with
           | seg :: segs => String a seg :: segs
           | [] => [String a EmptyString]
           end
  end.

(** [l[0]] and [l[-1]] on the result of a split. *)
Definition first (l : list string) : string := hd EmptyString l.
Definition last (l : list string) : string := List.last l EmptyString.

(** [sep.join(l)]. *)
Definition join (sep : string) (l : list string) : string := String.concat sep l.

(** [f"{n}"] for a non-negative integer. *)
Definition of_nat (n : nat) : string := NilZero.string_of_uint (Nat.to_uint n).

End PyStr.

(* ================================================================== *)
(** * The range reference resolver (lines 243-258 and 266-280) *)
(* ================================================================== *)

(** The three replacements shared by every pipeline:
    [.replace("(", "").replace(")", "").replace("'", "")]. *)
Definition strip_wrappers (input : string) : string :=
  PyStr.replace "'" "" (PyStr.replace ")" "" (PyStr.replace "(" "" input)).

(** [chart_sheet_name]: [... .split(sep="!")[0]]. *)
Definition chart_sheet_name (input : string) : string :=
  PyStr.first (PyStr.split "!" (strip_wrappers input)).

(** [x.split(",")[0] + ":" + x.split(",")[-1] if "," in x else x]. *)
Definition collapse (x : string) : string :=
  if PyStr.contains "," x
  then PyStr.first (PyStr.split "," x) ++ ":" ++ PyStr.last (PyStr.split "," x)
  else x.

(** The category range before the collapse (lines 250-257). *)
Definition cat_range_body (input_cat_range : string) : string :=
  PyStr.replace "$" ""
    (PyStr.replace (chart_sheet_name input_cat_range ++ "!") ""
       (strip_wrappers input_cat_range)).

(** [chart_cat_range] (lines 250-258). *)
Definition chart_cat_range (input_cat_range : string) : string :=
  collapse (cat_range_body input_cat_range).

(** The value range before the collapse (lines 273-279): no [$] replacement. *)
Definition val_range_body (input_val_range : string) : string :=
  PyStr.replace (chart_sheet_name input_val_range ++ "!") ""
    (strip_wrappers input_val_range).

(** [chart_val_range] (lines 273-280). *)
Definition chart_val_range (input_val_range : string) : string :=
  collapse (val_range_body input_val_range).

(* ================================================================== *)
(** * Exceptions and effects *)
(* ================================================================== *)

(** The exceptions that the modelled code can raise.  [KeyError] carries the
    argument of the exception, [AttributeError] the attribute that was
    looked up, [UserError] the user-facing message. *)
Inductive exn : Type :=
| KeyError (arg : string)
| AttributeError (attribute : string)
| IndexError
| TypeError
| ValueError
| UserError (message : string).

(** A computation that returns or raises. *)
Definition result (A : Type) : Type := (exn + A)%type.

Definition ok {A} (a : A) : result A := inr a.
Definition raise {A} (e : exn) : result A := inl e.

Definition rbind {A B} (c : result A) (k : A -> result B) : result B :=
  match c with
  | inl e => inl e
  | inr a => k a
  end.

(** [o.attribute] where [o] may be [None]: the attribute access on [None]
    raises [AttributeError]. *)
Definition deref {A} (o : option A) (attribute : string) : result A :=
  match o with
  | Some a => ok a
  | None => raise (AttributeError attribute)
  end.

(** The observable effects: [UserMessage.warning(msg)] and [wb.close()]. *)
Inductive event : Type :=
| Warning (msg : string)
| Close.

(** A computation that returns or raises, and appends to the event log.
    The log survives an exception: what was emitted before the raise stays
    emitted. *)
Definition M (A : Type) : Type := list event -> result A * list event.

Definition ret {A} (a : A) : M A := fun log => (ok a, log).
Definition throw {A} (e : exn) : M A := fun log => (raise e, log).
Definition emit (ev : event) : M unit := fun log => (ok tt, (log ++ [ev])%list).
Definition lift {A} (c : result A) : M A := fun log => (c, log).

Definition bind {A B} (c : M A) (k : A -> M B) : M B :=
  fun log =>
    match c log with
    | (inl e, log') => (inl e, log')
    | (inr a, log') => k a log'
    end.

Declare Scope py_scope.
Delimit Scope py_scope with py.
Notation "x <- c ;; k" := (bind c (fun x => k))
  (at level 61, c at next level, right associativity) : py_scope.
Notation "c ;;; k" := (bind c (fun _ => k))
  (at level 61, right associativity) : py_scope.
Notation "'let?' x := c 'in' k" := (rbind c (fun x => k))
  (at level 61, x pattern, c at next level, right associativity).

(* ================================================================== *)
(** * The openpyxl object graph, as the parser reads it *)
(* ================================================================== *)

(** A cell value.  Numbers are integers here; [truthy] is Python's truth
    value of the cell's value. *)
Inductive value : Type :=
| VNone
| VStr (s : string)
| VInt (z : Z)
| VBool (b : bool).

Definition truthy (x : value) : bool :=
  match x with
  | VNone => false
  | VStr s => negb (String.eqb s "")
  | VInt z => negb (Z.eqb z 0)
  | VBool b => b
  end.

(** What a range lookup yields in each position: a [Cell], or something
    else (a merged-cell placeholder), for which [type(x) == Cell] fails. *)
Inductive entry : Type :=
| ACell (x : value)
| MergedCell.

(** Rich text of a title: [title.tx.rich.p[i].r[j].t]. *)
Record RegularTextRun := { run_t : string }.
Record Paragraph := { par_r : list RegularTextRun }.
Record RichText := { rich_p : list Paragraph }.
Record Text := { rich : option RichText }.
Record Title := { tx : option Text }.

(** References of a series: [ref.f] is the range reference,
    [ref.numCache.formatCode] the cached display format. *)
Record NumData := { formatCode : option string }.
Record NumRef := { num_f : string; numCache : option NumData }.
Record StrRef := { str_f : string }.
Record AxDataSource := { strRef : option StrRef; numRef : option NumRef }.
Record NumDataSource := { val_numRef : option NumRef }.
Record SeriesLabel := { label_v : option string }.

(** A raw series.  The openpyxl class has the four sources as attributes
    whatever the chart type; it has no [append]. *)
Record Series := {
  xVal : option AxDataSource;
  yVal : option NumDataSource;
  cat : option AxDataSource;
  val : option NumDataSource;
  ser_tx : option SeriesLabel
}.

Record Axis := { axis_title : option Title }.

(** A chart.  A pie chart has no axes: [x_axis] and [y_axis] are absent. *)
Record Chart := {
  tagname : string;
  title : option Title;
  x_axis : option Axis;
  y_axis : option Axis;
  series : list Series
}.

(** A row of [ws.iter_rows(min_row=2, max_col=4)]: the values of its four
    cells. *)
Record Row := { cell0 : value; cell1 : value; cell2 : value; cell3 : value }.

(** A worksheet: its charts, its rows from row 2 on, and the range lookup
    [ws[range]] iterated as the parser does; the lookup is the library's and
    is taken as given (it raises on a range it cannot parse or iterate). *)
Record Worksheet := {
  _charts : list Chart;
  iter_rows : list Row;
  cells : string -> result (list (list entry))
}.

(** A workbook: its sheets in order, by name. *)
Definition Workbook : Type := list (string * Worksheet).

Definition sheetnames (wb : Workbook) : list string := map fst wb.

(** [wb[name]]. *)
Fixpoint sheet (wb : Workbook) (name : string) : result Worksheet :=
  match wb with
  | [] => raise (KeyError ("Worksheet " ++ name ++ " does not exist."))
  | (n, ws) :: rest => if String.eqb n name then ok ws else sheet rest name
  end.

(** [title.tx.rich.p[0]]. *)
Definition paragraph0 (T : Title) : result Paragraph :=
  let? text := deref (tx T) "rich" in
  let? rt := deref (rich text) "p" in
  match rich_p rt with
  | [] => raise IndexError
  | par :: _ => ok par
  end.

(** [title.tx.rich.p[0].r[-1].t]. *)
Definition last_run_text (T : Title) : result string :=
  let? par := paragraph0 T in
  match par_r par with
  | [] => raise IndexError
  | run :: runs => ok (run_t (List.last runs run))
  end.

(* ================================================================== *)
(** * Python dict: insertion-ordered, assignment overwrites in place *)
(* ================================================================== *)

Section Dict.
Variable V : Type.

Definition dict : Type := list (string * V).

(** [d[k] = x]. *)
Fixpoint dict_set (k : string) (x : V) (d : dict) : dict :=
  match d with
  | [] => [(k, x)]
  | (k', x') :: rest =>
      if String.eqb k' k then (k, x) :: rest else (k', x') :: dict_set k x rest
  end.

(** [d[k]]. *)
Fixpoint dict_get (k : string) (d : dict) : result V :=
  match d with
  | [] => raise (KeyError k)
  | (k', x) :: rest => if String.eqb k' k then ok x else dict_get k rest
  end.

(** [k in d]. *)
Definition dict_mem (k : string) (d : dict) : bool :=
  existsb (fun kv => String.eqb (fst kv) k) d.

(** [for k in d]. *)
Definition dict_keys (d : dict) : list string := map fst d.
End Dict.

Arguments dict_set {V} k x d.
Arguments dict_get {V} k d.
Arguments dict_mem {V} k d.
Arguments dict_keys {V} d.

(* ================================================================== *)
(** * ExcelImageParser *)
(* ================================================================== *)

Definition ALLOWED_FIGURE_TYPES : list string :=
  ["lineChart"; "scatterChart"; "barChart"; "pieChart"].

(** [chart_type in ALLOWED_FIGURE_TYPES]. *)
Definition allowed (chart_type : string) : bool :=
  existsb (String.eqb chart_type) ALLOWED_FIGURE_TYPES.

(** The attributes of the parser that the modelled methods read. *)
Record ExcelImageParser := {
  workbook : Workbook;
  charts : list Chart;
  _charts_map : dict Chart
}.

(** ** [__init__], lines 41-56: the chart catalog *)

(** The state of the two nested loops. *)
Record Catalog := {
  untitled_index : nat;
  cat_charts : list Chart;
  cat_map : dict Chart
}.

(** Lines 49-53: the title of a chart and the counter after it. *)
Definition chart_title_of (chart : Chart) (untitled_index : nat)
  : result (string * nat) :=
  match title chart with
  | Some T =>
      let? par := paragraph0 T in
      ok (PyStr.join "" (map run_t (par_r par)), untitled_index)
  | None =>
      ok ("Untitled " ++ PyStr.of_nat untitled_index, untitled_index + 1)
  end.

(** Lines 48-56: [for chart in sheet._charts]. *)
Fixpoint charts_loop (cs : list Chart) (st : Catalog) : result Catalog :=
  match cs with
  | [] => ok st
  | chart :: rest =>
      let? (chart_title, index) := chart_title_of chart (untitled_index st) in
      charts_loop rest
        {| untitled_index := index;
           cat_charts := (cat_charts st ++ [chart])%list;
           cat_map := dict_set chart_title chart (cat_map st) |}
  end.

(** Lines 46-56: [for sheet_name in sheet_names]. *)
Fixpoint sheets_loop (wb : Workbook) (sheet_names : list string) (st : Catalog)
  : result Catalog :=
  match sheet_names with
  | [] => ok st
  | sheet_name :: rest =>
      let? ws := sheet wb sheet_name in
      let? st' := charts_loop (_charts ws) st in
      sheets_loop wb rest st'
  end.

(** The constructor, from the loaded workbook on. *)
Definition __init__ (wb : Workbook) : result ExcelImageParser :=
  let? st := sheets_loop wb (sheetnames wb)
               {| untitled_index := 1; cat_charts := []; cat_map := [] |} in
  ok {| workbook := wb; charts := cat_charts st; _charts_map := cat_map st |}.

(** ** [get_input_cells], lines 69-85 *)

Record InputCell := {
  name : value;
  unit_ : value;
  description : value;
  default : value;
  key : string
}.

(** Lines 74-84: [for index, row in enumerate(...)], [inputs] accumulated. *)
Fixpoint input_rows_loop (index : nat) (rows : list Row) (inputs : list InputCell)
  : list InputCell :=
  match rows with
  | [] => inputs
  | row :: rest =>
      input_rows_loop (S index) rest
        (if truthy (cell0 row)
         then (inputs ++
              [ {| name := cell0 row;
                   unit_ := if truthy (cell1 row) then cell1 row else VStr "";
                   description := cell2 row;
                   default := cell3 row;
                   key := "input_" ++ PyStr.of_nat index |} ])%list
         else inputs)
  end.

Definition get_input_cells (self : ExcelImageParser) : result (list InputCell) :=
  let? ws_input := sheet (workbook self) "viktor-input-sheet" in
  ok (input_rows_loop 0 (iter_rows ws_input) []).

(** ** [_parse_chart_data], lines 192-305 *)

Record SeriesRecord := {
  category_axis_data : list value;
  value_axis_data : list value;
  category_value_format : option string;
  values_value_format : option string;
  series_name : option string
}.

(** What the local name [series] is bound to: the list created on line 197,
    or, inside the loop of line 215, the raw series the loop variable of the
    same name holds. *)
Inductive series_var : Type :=
| SeriesList (l : list SeriesRecord)
| SeriesObject (s : Series).

(** [series.append(ser)] on what [series] is bound to. *)
Definition append (target : series_var) (ser : SeriesRecord) : result series_var :=
  match target with
  | SeriesList l => ok (SeriesList (l ++ [ser])%list)
  | SeriesObject _ => raise (AttributeError "append")
  end.

Record ChartData := {
  chart_title : string;
  chart_type : string;
  x_axis_title : option string;
  y_axis_title : option string;
  cd_series : series_var
}.

(** The two variables that live across the iterations of the series loop
    (lines 213-214). *)
Record Carry := {
  input_cat_range : string;
  input_cat_format : option string
}.

(** Lines 213-214: the carried variables at the start of a chart. *)
Definition initial_carry : Carry :=
  {| input_cat_range := ""; input_cat_format := None |}.

(** Lines 217-222 and 228-234: the category source of a series ([xVal] of a
    scatter chart, [cat] otherwise) updates the carried variables when it
    has a string or a number reference, and leaves them otherwise. *)
Definition read_category (src : option AxDataSource) (carry : Carry) : result Carry :=
  match src with
  | Some x =>
      match strRef x with
      | Some sr =>
          ok {| input_cat_range := str_f sr;
                input_cat_format := input_cat_format carry |}
      | None =>
          match numRef x with
          | Some nr =>
              let? cache := deref (numCache nr) "formatCode" in
              ok {| input_cat_range := num_f nr;
                    input_cat_format := formatCode cache |}
          | None => ok carry
          end
      end
  | None => ok carry
  end.

(** Lines 224-225 and 236-237: the value source ([yVal] or [val]). *)
Definition read_value (src : option NumDataSource) : result (string * option string) :=
  let? data := deref src "numRef" in
  let? nr := deref (val_numRef data) "f" in
  let? cache := deref (numCache nr) "formatCode" in
  ok (num_f nr, formatCode cache).

(** Lines 239-240: [None if fmt == "General" else fmt]. *)
Definition drop_general (fmt : option string) : option string :=
  match fmt with
  | Some code => if String.eqb code "General" then None else Some code
  | None => None
  end.

(** Lines 260-263 and 282-285: the values of the cells of a block. *)
Definition cell_values (block : list (list entry)) : list value :=
  flat_map
    (fun element =>
       flat_map (fun sub_element =>
                   match sub_element with
                   | ACell x => [x]
                   | MergedCell => []
                   end) element)
    block.

(** [wb[sheet_name][range]], read as above. *)
Definition dereference (wb : Workbook) (sheet_name range : string)
  : result (list value) :=
  let? ws := sheet wb sheet_name in
  let? block := cells ws range in
  ok (cell_values block).

(** Lines 216-294: the body of the series loop up to the record [ser]. *)
Definition series_record (chart_type : string) (wb : Workbook)
           (s : Series) (carry : Carry) : result (Carry * SeriesRecord) :=
  let scatter := String.eqb chart_type "scatterChart" in
  let? carry1 := read_category (if scatter then xVal s else cat s) carry in
  let? (input_val_range, input_val_format) :=
    read_value (if scatter then yVal s else val s) in
  let cat_format := drop_general (input_cat_format carry1) in
  let val_format := drop_general input_val_format in
  let? cat_data :=
    dereference wb (chart_sheet_name (input_cat_range carry1))
                   (chart_cat_range (input_cat_range carry1)) in
  let? val_data :=
    dereference wb (chart_sheet_name input_val_range)
                   (chart_val_range input_val_range) in
  let series_name :=
    match ser_tx s with
    | Some label => label_v label
    | None => None
    end in
  ok ({| input_cat_range := input_cat_range carry1;
         input_cat_format := cat_format |},
      {| category_axis_data := cat_data;
         value_axis_data := val_data;
         category_value_format := cat_format;
         values_value_format := val_format;
         series_name :=
           match series_name with
           | Some n => if String.eqb n "" then None else Some n
           | None => None
           end |}).

(** Lines 215-295: [for i, series in enumerate(chart.series)].  The loop
    variable has the name of the list of line 197, so each iteration rebinds
    [series] to the raw series, and line 295 appends to that. *)
Fixpoint series_loop (chart_type : string) (wb : Workbook) (raw : list Series)
         (series : series_var) (carry : Carry) : result series_var :=
  match raw with
  | [] => ok series
  | s :: rest =>
      let series := SeriesObject s in
      let? (carry', ser) := series_record chart_type wb s carry in
      let? series := append series ser in
      series_loop chart_type wb rest series carry'
  end.

(** Lines 205-210. *)
Definition axis_titles (chart : Chart) : result (option string * option string) :=
  if String.eqb (tagname chart) "pieChart" then ok (None, None)
  else
    let? xa := deref (x_axis chart) "title" in
    let? x_axis_title :=
      match axis_title xa with
      | Some T => let? text := last_run_text T in ok (Some text)
      | None => ok None
      end in
    let? ya := deref (y_axis chart) "title" in
    let? y_axis_title :=
      match axis_title ya with
      | Some T => let? text := last_run_text T in ok (Some text)
      | None => ok None
      end in
    ok (x_axis_title, y_axis_title).

Definition unsupported_warning (chart_title : string) : string :=
  "Chart titled '" ++ chart_title ++
  "' is not of one of the allowed types and can not be visualised".

(** Lines 205-305: the part after the type check. *)
Definition chart_description (chart_title : string) (chart : Chart) (wb : Workbook)
  : result ChartData :=
  let raw_series := series chart in
  let series := SeriesList [] in
  let chart_type := tagname chart in
  let? (x_axis_title, y_axis_title) := axis_titles chart in
  let? series :=
    series_loop chart_type wb raw_series series initial_carry in
  ok {| chart_title := chart_title;
        chart_type := chart_type;
        x_axis_title := x_axis_title;
        y_axis_title := y_axis_title;
        cd_series := series |}.

Definition _parse_chart_data (self : ExcelImageParser) (chart_title : string)
           (wb : Workbook) : M (option ChartData) :=
  (chart <- lift (dict_get chart_title (_charts_map self)) ;;
   if negb (allowed (tagname chart))
   then emit (Warning (unsupported_warning chart_title)) ;;; ret None
   else (chart_data <- lift (chart_description chart_title chart wb) ;;
         ret (Some chart_data)))%py.

(** ** [_create_plotly_figure], lines 307-348 *)

(** The traces and the layout that the method asks plotly for. *)
Inductive Trace : Type :=
| Scatter (x y : list value) (mode : option string) (trace_name : option string)
| Bar (x y : list value)
| Pie (labels values : list value).

Record Layout := {
  title_text : option string;
  xaxis_title : option string;
  yaxis_title : option string;
  yaxis_tickformat : option string;
  xaxis_tickformat : option string
}.

Record Figure := { data : list Trace; layout : Layout }.

Definition empty_figure : Figure :=
  {| data := [];
     layout := {| title_text := None; xaxis_title := None; yaxis_title := None;
                  yaxis_tickformat := None; xaxis_tickformat := None |} |}.

(** [for ser in chart_data["series"]: fig.add_trace(...)].  A raw series
    object in place of the list has no records to read: [ser[...]] raises. *)
Definition add_traces (mk : SeriesRecord -> Trace) (series : series_var) (fig : Figure)
  : result Figure :=
  match series with
  | SeriesList l => ok {| data := (data fig ++ map mk l)%list; layout := layout fig |}
  | SeriesObject _ => raise TypeError
  end.

(** [chart_data["series"][0]]. *)
Definition series0 (series : series_var) : result SeriesRecord :=
  match series with
  | SeriesList (ser :: _) => ok ser
  | SeriesList [] => raise IndexError
  | SeriesObject _ => raise TypeError
  end.

(** The [update_layout] call of the line, bar and scatter branches. *)
Definition update_layout_xy (chart_data : ChartData) (fig : Figure) : result Figure :=
  let? ser0 := series0 (cd_series chart_data) in
  ok {| data := data fig;
        layout := {| title_text := Some (chart_title chart_data);
                     xaxis_title := x_axis_title chart_data;
                     yaxis_title := y_axis_title chart_data;
                     yaxis_tickformat := values_value_format ser0;
                     xaxis_tickformat := category_value_format ser0 |} |}.

(** The [update_layout] call of the pie branch: the title only. *)
Definition update_layout_pie (chart_data : ChartData) (fig : Figure) : Figure :=
  {| data := data fig;
     layout := {| title_text := Some (chart_title chart_data);
                  xaxis_title := xaxis_title (layout fig);
                  yaxis_title := yaxis_title (layout fig);
                  yaxis_tickformat := yaxis_tickformat (layout fig);
                  xaxis_tickformat := xaxis_tickformat (layout fig) |} |}.

Definition _create_plotly_figure (chart_data : ChartData) : result Figure :=
  let fig := empty_figure in
  let type := chart_type chart_data in
  let series := cd_series chart_data in
  let? fig :=
    if String.eqb type "lineChart" then
      let? fig := add_traces
                    (fun ser => Scatter (category_axis_data ser) (value_axis_data ser)
                                        (Some "lines") (series_name ser))
                    series fig in
      update_layout_xy chart_data fig
    else ok fig in
  let? fig :=
    if String.eqb type "barChart" then
      let? fig := add_traces
                    (fun ser => Bar (category_axis_data ser) (value_axis_data ser))
                    series fig in
      update_layout_xy chart_data fig
    else ok fig in
  let? fig :=
    if String.eqb type "pieChart" then
      let? fig := add_traces
                    (fun ser => Pie (category_axis_data ser) (value_axis_data ser))
                    series fig in
      ok (update_layout_pie chart_data fig)
    else ok fig in
  if String.eqb type "scatterChart" then
    let? fig := add_traces
                  (fun ser => Scatter (category_axis_data ser) (value_axis_data ser)
                                      None None)
                  series fig in
    update_layout_xy chart_data fig
  else ok fig.

(** ** [get_figures_from_excel_file] and [get_plotly_figure_by_title] *)

Section Evaluated.

(** [self.get_evaluated_spreadsheet()]: the recalculation is done by an
    external service; what the two methods below use of it is the evaluated
    workbook it returns, or the exception it raises. *)
Variable get_evaluated_spreadsheet : ExcelImageParser -> result Workbook.

(** Lines 153-158: [for chart_title in self._charts_map].  A figure is
    the chart data with its ['fig'] entry. *)
Fixpoint figures_loop (self : ExcelImageParser) (wb : Workbook)
         (titles : list string) (figures : list (ChartData * Figure))
  : M (list (ChartData * Figure)) :=
  match titles with
  | [] => ret figures
  | chart_title :: rest =>
      (chart_data <- _parse_chart_data self chart_title wb ;;
       match chart_data with
       | None => figures_loop self wb rest figures
       | Some cd =>
           fig <- lift (_create_plotly_figure cd) ;;
           figures_loop self wb rest (figures ++ [(cd, fig)])%list
       end)%py
  end.

(** Lines 148-161. *)
Definition get_figures_from_excel_file (self : ExcelImageParser)
  : M (list (ChartData * Figure)) :=
  (wb <- lift (get_evaluated_spreadsheet self) ;;
   figures <- figures_loop self wb (dict_keys (_charts_map self)) [] ;;
   emit Close ;;;
   ret figures)%py.

(** Lines 163-172. *)
Definition get_plotly_figure_by_title (self : ExcelImageParser) (title : string)
  : M Figure :=
  (wb <- lift (get_evaluated_spreadsheet self) ;;
   chart_data <- _parse_chart_data self title wb ;;
   emit Close ;;;
   match chart_data with
   | None => throw (UserError ("No figure found with title: " ++ title))
   | Some cd => lift (_create_plotly_figure cd)
   end)%py.

End Evaluated.

(* ================================================================== *)
(** * The properties of the specification, as predicates *)
(* ================================================================== *)

(** The charts of a workbook in discovery order: sheet order, then the
    order of the charts on the sheet. *)
Definition discovered (wb : Workbook) : list Chart :=
  flat_map (fun sheet_name =>
              match sheet wb sheet_name with
              | inr ws => _charts ws
              | inl _ => []
              end)
           (sheetnames wb).

Definition has_title (chart : Chart) : bool :=
  match title chart with
  | Some _ => true
  | None => false
  end.

(** How many of the charts have no explicit title. *)
Definition untitled (cs : list Chart) : nat :=
  List.length (filter (fun chart => negb (has_title chart)) cs).

(** The catalog after the assignments [d[title] = chart], in order. *)
Definition assign (d : dict Chart) (entries : list (string * Chart)) : dict Chart :=
  fold_left (fun d kv => dict_set (fst kv) (snd kv) d) entries d.

(** All the runs of a rich-text title, over all its paragraphs. *)
Definition all_runs (T : Title) : list RegularTextRun :=
  match tx T with
  | Some text =>
      match rich text with
      | Some rt => flat_map par_r (rich_p rt)
      | None => []
      end
  | None => []
  end.

(** The catalog of [wb] has, for every titled chart, the concatenation of
    all the runs of its title as a key. *)
Definition keyed_by_all_runs (wb : Workbook) : Prop :=
  forall self, __init__ wb = ok self ->
  forall chart T, In chart (charts self) -> title chart = Some T ->
  dict_mem (PyStr.join "" (map run_t (all_runs T))) (_charts_map self) = true.

(** The keys of the input records count the included rows: the record at
    position [j] has the key [input_j]. *)
Definition keys_count_included_rows (inputs : list InputCell) : Prop :=
  forall j cell, nth_error inputs j = Some cell ->
  key cell = "input_" ++ PyStr.of_nat j.

(** The record that [get_input_cells] builds for the row at [index]. *)
Definition input_cell (index : nat) (row : Row) : InputCell :=
  {| name := cell0 row;
     unit_ := if truthy (cell1 row) then cell1 row else VStr "";
     description := cell2 row;
     default := cell3 row;
     key := "input_" ++ PyStr.of_nat index |}.

(** [enumerate(rows)] from [start]. *)
Definition enumerate {A} (start : nat) (l : list A) : list (nat * A) :=
  combine (seq start (List.length l)) l.


(** A string with none of the characters in [cs]. *)
Definition lacks (cs : list ascii) (x : string) : bool :=
  forallb (fun c => negb (PyStr.contains c x)) cs.

(** A plain range string: no parentheses, quotes, sheet prefix, [$] markers
    or commas. *)
Definition plain (x : string) : bool :=
  lacks ["("; ")"; "'"; "!"; "$"; ","]%char x.

(** A part of a reference, between the separators [!] and [,]. *)
Definition part (x : string) : bool := lacks ["!"; ","]%char x.

(** The multi-segment reference [sh!seg1,sh!seg2,...]. *)
Definition union_reference (sh : string) (segs : list string) : string :=
  PyStr.join "," (map (fun seg => sh ++ "!" ++ seg) segs).


(** The call for the title [t] raises the [UserError] "No figure found with
    title: {t}", and this is the message that a title missing from the
    catalog gets. *)
Definition reported_like_a_missing_title
           (get_evaluated_spreadsheet : ExcelImageParser -> result Workbook)
           (self : ExcelImageParser) (t : string) : Prop :=
  forall log,
    fst (get_plotly_figure_by_title get_evaluated_spreadsheet self t log)
    = raise (UserError ("No figure found with title: " ++ t))
    /\ forall missing,
         dict_mem missing (_charts_map self) = false ->
         fst (get_plotly_figure_by_title get_evaluated_spreadsheet self missing log)
         = raise (UserError ("No figure found with title: " ++ missing)).

(** The titles [titles] are those of the charts [cs] when the counter of
    the untitled charts is [n] at the start of [cs]: a chart without title
    has ["Untitled k"], where [k] is [n] plus the number of untitled charts
    before it; a chart with a title has the concatenation of the runs of the
    first paragraph of its title. *)
Definition titled_from (n : nat) (cs : list Chart) (titles : list string) : Prop :=
  forall i chart, nth_error cs i = Some chart ->
  match title chart with
  | None =>
      nth_error titles i
      = Some ("Untitled " ++ PyStr.of_nat (n + untitled (firstn i cs)))
  | Some T =>
      exists par, paragraph0 T = ok par
                  /\ nth_error titles i = Some (PyStr.join "" (map run_t (par_r par)))
  end.

(** What a run of the loops does to the catalog. *)
Definition extends (st st' : Catalog) (cs : list Chart) : Prop :=
  exists titles,
    List.length titles = List.length cs
    /\ titled_from (untitled_index st) cs titles
    /\ untitled_index st' = untitled_index st + untitled cs
    /\ cat_charts st' = (cat_charts st ++ cs)%list
    /\ cat_map st' = assign (cat_map st) (combine titles cs).

(* ================================================================== *)
(** * Sample workbooks and charts *)
(* ================================================================== *)

Module Sample.

Definition column (xs : list value) : list (list entry) :=
  map (fun x => [ACell x]) xs.

Definition labels : list value :=
  [VStr "Mon"; VStr "Tue"; VStr "Wed"; VStr "Thu"; VStr "Fri"].
Definition sales : list value := [VInt 3; VInt 7; VInt 4; VInt 9; VInt 5].
Definition costs : list value := [VInt 1; VInt 2; VInt 2; VInt 4; VInt 3].

Definition str_source (f : string) : AxDataSource :=
  {| strRef := Some {| str_f := f |}; numRef := None |}.

Definition num_source (f : string) : NumDataSource :=
  {| val_numRef :=
       Some {| num_f := f;
               numCache := Some {| formatCode := Some "General" |} |} |}.

(** A series of a line, bar or pie chart. *)
Definition category_series (c : option string) (v : string) : Series :=
  {| xVal := None; yVal := None;
     cat := option_map str_source c;
     val := Some (num_source v);
     ser_tx := None |}.

Definition plain_title (text : string) : Title :=
  {| tx := Some {| rich := Some {| rich_p :=
       [ {| par_r := [ {| run_t := text |} ] |} ] |} |} |}.

Definition no_axis_title : option Axis := Some {| axis_title := None |}.

Definition S1 : Series :=
  category_series (Some "Sheet1!$A$1:$A$5") "Sheet1!$B$1:$B$5".
Definition S2 : Series :=
  category_series None "Sheet1!$C$1:$C$5".

(** A line chart with one series. *)
Definition one_series_chart : Chart :=
  {| tagname := "lineChart"; title := Some (plain_title "Sales");
     x_axis := no_axis_title; y_axis := no_axis_title;
     series := [S1] |}.

(** A line chart with two series, the second without category reference. *)
Definition two_series_chart : Chart :=
  {| tagname := "lineChart"; title := Some (plain_title "Sales and costs");
     x_axis := no_axis_title; y_axis := no_axis_title;
     series := [S1; S2] |}.

(** A line chart whose series refers to a sheet that is not there. *)
Definition dangling_chart : Chart :=
  {| tagname := "lineChart"; title := Some (plain_title "Dangling");
     x_axis := no_axis_title; y_axis := no_axis_title;
     series := [category_series (Some "Gone!$A$1:$A$5") "Gone!$B$1:$B$5"] |}.

(** A chart of a type that is not allowed. *)
Definition radar_chart : Chart :=
  {| tagname := "radarChart"; title := Some (plain_title "Radar");
     x_axis := no_axis_title; y_axis := no_axis_title;
     series := [S1] |}.

(** A pie chart without series. *)
Definition empty_pie : Chart :=
  {| tagname := "pieChart"; title := None;
     x_axis := None; y_axis := None; series := [] |}.

(** A chart whose title has two paragraphs. *)
Definition two_line_title : Title :=
  {| tx := Some {| rich := Some {| rich_p :=
       [ {| par_r := [ {| run_t := "Sales" |} ] |};
         {| par_r := [ {| run_t := "2024" |} ] |} ] |} |} |}.

Definition two_line_chart : Chart :=
  {| tagname := "barChart"; title := Some two_line_title;
     x_axis := no_axis_title; y_axis := no_axis_title; series := [] |}.

(** The range lookup of the sample sheet: three columns of five rows. *)
Definition sheet1_cells (range : string) : result (list (list entry)) :=
  if String.eqb range "A1:A5" then ok (column labels)
  else if String.eqb range "$B$1:$B$5" then ok (column sales)
  else if String.eqb range "$C$1:$C$5" then ok (column costs)
  else raise ValueError.

Definition sheet1 (cs : list Chart) : Worksheet :=
  {| _charts := cs; iter_rows := []; cells := sheet1_cells |}.

Definition text_row (n : value) : Row :=
  {| cell0 := n; cell1 := VNone; cell2 := VNone; cell3 := VInt 1 |}.

(** An input sheet whose second data row has no name. *)
Definition input_sheet : Worksheet :=
  {| _charts := [];
     iter_rows := [text_row (VStr "width"); text_row VNone; text_row (VStr "height")];
     cells := fun _ => raise ValueError |}.

(** Two sheets with charts, each with a chart without title. *)
Definition two_sheets : Workbook :=
  [("First", sheet1 [empty_pie]);
   ("Second", sheet1 [one_series_chart; empty_pie])].

Definition wb_of (cs : list Chart) : Workbook :=
  [("Sheet1", sheet1 cs); ("viktor-input-sheet", input_sheet)].

(** The parser that the constructor builds on a workbook. *)
Definition parser_of_wb (wb : Workbook) : ExcelImageParser :=
  match __init__ wb with
  | inr self => self
  | inl _ => {| workbook := wb; charts := []; _charts_map := [] |}
  end.

(** The parser built on the workbook with the charts [cs] on its sheet. *)
Definition parser_of (cs : list Chart) : ExcelImageParser :=
  parser_of_wb (wb_of cs).

(** The evaluation succeeds and returns the workbook of the parser. *)
Definition evaluate (self : ExcelImageParser) : result Workbook :=
  ok (workbook self).

(** The evaluation raises. *)
Definition failing_evaluation (self : ExcelImageParser) : result Workbook :=
  raise (UserError "evaluation failed").

End Sample.

(* ================================================================== *)
(** * The other methods of the class *)
(* ================================================================== *)

(** ** [validate_sheet_names], lines 58-67 *)

Record InputViolation := { violation_message : string; fields : list string }.

(** The [UserError] of [validate_sheet_names], with its
    [input_violations]. *)
Record ViolationError := {
  error_message : string;
  input_violations : list InputViolation
}.

(** [sheetname in wb]. *)
Definition sheet_in (wb : Workbook) (sheetname : string) : bool :=
  existsb (String.eqb sheetname) (sheetnames wb).

Definition validate_sheet_names (self : ExcelImageParser) : ViolationError + unit :=
  let wb := workbook self in
  if negb (forallb (sheet_in wb) ["viktor-input-sheet"; "viktor-output-sheet"])
  then inl {| error_message := "The sheet names are not correctly formatted.";
              input_violations :=
                [ {| violation_message :=
                       "Please check the sheet and follow the documentation";
                     fields := ["excel_file"] |} ] |}
  else inr tt.

(** ** [get_figure_titles], lines 174-190 *)

(** [str.isalnum] and [str.lower] on the characters of ASCII; a title is
    read as a string of such characters ([ascii_only]). *)
Module PyChar.

Definition between (lo hi : nat) (c : ascii) : bool :=
  ((lo <=? nat_of_ascii c) && (nat_of_ascii c <=? hi))%nat.

Definition isdigit (c : ascii) : bool := between 48 57 c.
Definition isupper (c : ascii) : bool := between 65 90 c.
Definition islower (c : ascii) : bool := between 97 122 c.

Definition isalnum (c : ascii) : bool := isdigit c || isupper c || islower c.

Definition lower (c : ascii) : ascii :=
  if isupper c then ascii_of_nat (nat_of_ascii c + 32) else c.

Definition is_ascii (c : ascii) : bool := (nat_of_ascii c <? 128)%nat.

End PyChar.

(** Every character of the string is an ASCII character. *)
Fixpoint ascii_only (s : string) : bool :=
  match s with
  | EmptyString => true
  | String c rest => PyChar.is_ascii c && ascii_only rest
  end.

(** [[s.lower() for s in x if s.isalnum() or s == "_"]]. *)
Fixpoint clean_name (x : string) : list string :=
  match x with
  | EmptyString => []
  | String s rest =>
      if PyChar.isalnum s || Ascii.eqb s "_"
      then String (PyChar.lower s) EmptyString :: clean_name rest
      else clean_name rest
  end.

(** Lines 179-180: the identifier made of a chart title. *)
Definition figure_name (chart_title : string) : string :=
  PyStr.join "" (clean_name (PyStr.replace " " "_" chart_title)).

Record FigureTitle := {
  title_name : string;
  concat_name : string;
  figure_type : string
}.

Definition get_figure_titles (self : ExcelImageParser) : list FigureTitle :=
  map (fun item =>
         {| title_name := fst item;
            concat_name := figure_name (fst item);
            figure_type := tagname (snd item) |})
      (_charts_map self).

(** ** [get_evaluated_spreadsheet], lines 87-124, and [get_outputs], lines
    126-146 *)

Section Evaluation.

(** The values that the parameters hold and that the evaluator returns are
    Python objects of any type; [type_str x] is [str(type(x))]. *)
Variable Obj : Type.
Variable type_str : Obj -> string.

(** What the method reads of [self.params]: the rows of
    [params.preview_step.fields_table], and the entries [params[key]]. *)
Record Params := {
  fields_table : list (dict Obj);
  entries : dict Obj
}.

(** The attributes of the parser that concern the evaluation. *)
Record Settings := {
  params : Params;
  from_app : bool;
  has_spreadsheet_calculation : bool
}.

(** The spreadsheet that is evaluated: the calculation given to the
    constructor, or one made of the uploaded file or of the file path, with
    the inputs [SpreadsheetCalculationInput(field_name, value)]. *)
Inductive Spreadsheet : Type :=
| GivenCalculation
| OfFile (inputs : list (value * Obj))
| OfPath (inputs : list (value * Obj)).

Definition rows_changed_message : string :=
  "Please do not add or delete rows from the input table, go back to the previous step and re-process the uploaded file".

(** Lines 106-109: [for (row, input_cell) in zip(fields_table, input_cells)]. *)
Fixpoint table_inputs (table : list (dict Obj)) (input_cells : list InputCell)
  : result (list (value * Obj)) :=
  match table, input_cells with
  | row :: table', input_cell :: input_cells' =>
      let? x := dict_get "values" row in
      let? inputs := table_inputs table' input_cells' in
      ok ((name input_cell, x) :: inputs)
  | _, _ => ok []
  end.

(** Lines 114-117: [for input_cell in input_cells]. *)
Fixpoint app_inputs (entries : dict Obj) (input_cells : list InputCell)
  : result (list (value * Obj)) :=
  match input_cells with
  | [] => ok []
  | input_cell :: input_cells' =>
      let? x := dict_get (key input_cell) entries in
      let? inputs := app_inputs entries input_cells' in
      ok ((name input_cell, x) :: inputs)
  end.

(** Lines 89-119: the spreadsheet to evaluate. *)
Definition spreadsheet_to_evaluate (settings : Settings) (self : ExcelImageParser)
  : result Spreadsheet :=
  if has_spreadsheet_calculation settings then ok GivenCalculation
  else
    let? input_cells := get_input_cells self in
    if negb (from_app settings)
       && negb (List.length input_cells
                =? List.length (fields_table (params settings)))%nat
    then raise (UserError rows_changed_message)
    else if negb (from_app settings)
    then let? inputs := table_inputs (fields_table (params settings)) input_cells in
         ok (OfFile inputs)
    else let? inputs := app_inputs (entries (params settings)) input_cells in
         ok (OfPath inputs).

(** Lines 121-122: the evaluation service and the loading of the file it
    returns; it gives the evaluated workbook and [result.values]. *)
Variable evaluate : Spreadsheet -> result (Workbook * dict Obj).

Definition get_evaluated_spreadsheet (settings : Settings) (self : ExcelImageParser)
  : result (Workbook * dict Obj) :=
  let? spreadsheet := spreadsheet_to_evaluate settings self in
  evaluate spreadsheet.

Record OutputCell := {
  out_name : value;
  out_unit : value;
  out_description : value;
  out_key : string;
  out_value : Obj;
  out_type : string
}.

(** The argument of the [KeyError] for a key that is no string. *)
Definition key_repr (k : value) : string :=
  match k with
  | VNone => "None"
  | VStr s => s
  | VInt z => NilZero.string_of_int (Z.to_int z)
  | VBool true => "True"
  | VBool false => "False"
  end.

(** [values[row[0].value]]: the keys of [values] are the names of the
    outputs, strings; another key is not found. *)
Definition lookup_value (values : dict Obj) (k : value) : result Obj :=
  match k with
  | VStr s => dict_get s values
  | _ => raise (KeyError (key_repr k))
  end.

(** Lines 134-145: [for index, row in enumerate(...)]. *)
Fixpoint output_rows_loop (values : dict Obj) (index : nat) (rows : list Row)
         (outputs : list OutputCell) : result (list OutputCell) :=
  match rows with
  | [] => ok outputs
  | row :: rest =>
      if truthy (cell0 row)
      then
        let? x := lookup_value values (cell0 row) in
        output_rows_loop values (S index) rest
          (outputs ++
           [ {| out_name := cell0 row;
                out_unit := if truthy (cell1 row) then cell1 row else VStr "";
                out_description := cell2 row;
                out_key := "output_" ++ PyStr.of_nat index;
                out_value := x;
                out_type := type_str x |} ])%list
      else output_rows_loop values (S index) rest outputs
  end.

Definition get_outputs (settings : Settings) (self : ExcelImageParser)
  : result (list OutputCell) :=
  let? (wb, values) := get_evaluated_spreadsheet settings self in
  let? ws_output := sheet wb "viktor-output-sheet" in
  match values with
  | [] => ok []
  | _ :: _ => output_rows_loop values 0 (iter_rows ws_output) []
  end.

End Evaluation.

Arguments GivenCalculation {Obj}.
Arguments OfFile {Obj} inputs.
Arguments OfPath {Obj} inputs.
Arguments fields_table {Obj} p.
Arguments entries {Obj} p.
Arguments params {Obj} s.
Arguments from_app {Obj} s.
Arguments has_spreadsheet_calculation {Obj} s.
Arguments table_inputs {Obj} table input_cells.
Arguments app_inputs {Obj} entries input_cells.
Arguments spreadsheet_to_evaluate {Obj} settings self.
Arguments get_evaluated_spreadsheet {Obj} evaluate settings self.
Arguments lookup_value {Obj} values k.
Arguments output_rows_loop {Obj} type_str values index rows outputs.
Arguments get_outputs {Obj} type_str evaluate settings self.
Arguments out_name {Obj} o.
Arguments out_unit {Obj} o.
Arguments out_description {Obj} o.
Arguments out_key {Obj} o.
Arguments out_value {Obj} o.
Arguments out_type {Obj} o.

(** [wb, _ = self.get_evaluated_spreadsheet()], lines 150 and 165: the
    evaluation as [get_figures_from_excel_file] and
    [get_plotly_figure_by_title] use it. *)
Definition evaluated_workbook {Obj}
           (evaluate : Spreadsheet Obj -> result (Workbook * dict Obj))
           (settings : Settings Obj) (self : ExcelImageParser) : result Workbook :=
  let? (wb, _) := get_evaluated_spreadsheet evaluate settings self in
  ok wb.

(* ================================================================== *)
(** * Further sample data *)
(* ================================================================== *)

Module Fixture.

(** A line chart whose only series has no category reference. *)
Definition no_category_chart : Chart :=
  {| tagname := "lineChart"; title := Some (Sample.plain_title "Bare");
     x_axis := Sample.no_axis_title; y_axis := Sample.no_axis_title;
     series := [Sample.category_series None "Sheet1!$B$1:$B$5"] |}.

(** A series of a line chart without value source. *)
Definition no_value_series : Series :=
  {| xVal := None; yVal := None;
     cat := Some (Sample.str_source "Sheet1!$A$1:$A$5");
     val := None;
     ser_tx := None |}.

(** The record of the series [Sample.S1] and the variables carried
    after it. *)
Definition S1_record : SeriesRecord :=
  {| category_axis_data := Sample.labels;
     value_axis_data := Sample.sales;
     category_value_format := None;
     values_value_format := None;
     series_name := None |}.

Definition S1_carry : Carry :=
  {| input_cat_range := "Sheet1!$A$1:$A$5"; input_cat_format := None |}.

(** A second record, with formats and a name. *)
Definition percent_record : SeriesRecord :=
  {| category_axis_data := Sample.labels;
     value_axis_data := Sample.costs;
     category_value_format := Some "d-mmm";
     values_value_format := Some "0.00%";
     series_name := Some "Costs" |}.

(** Chart data with the records [l], as a caller of
    [_create_plotly_figure] can pass them. *)
Definition chart_data_of (type : string) (l : list SeriesRecord) : ChartData :=
  {| chart_title := "Week"; chart_type := type;
     x_axis_title := Some "Day"; y_axis_title := Some "Amount";
     cd_series := SeriesList l |}.

(** The chart data of the pie chart without series and without title. *)
Definition empty_pie_data : ChartData :=
  {| chart_title := "Untitled 1"; chart_type := "pieChart";
     x_axis_title := None; y_axis_title := None;
     cd_series := SeriesList [] |}.

(** The figure with a title and nothing else. *)
Definition titled_figure (t : string) : Figure :=
  {| data := [];
     layout := {| title_text := Some t;
                  xaxis_title := None; yaxis_title := None;
                  yaxis_tickformat := None; xaxis_tickformat := None |} |}.

(** Two charts with the same explicit title, an untitled chart between
    them. *)
Definition same_title_bar : Chart :=
  {| tagname := "barChart"; title := Some (Sample.plain_title "Same");
     x_axis := Sample.no_axis_title; y_axis := Sample.no_axis_title;
     series := [] |}.

Definition same_title_pie : Chart :=
  {| tagname := "pieChart"; title := Some (Sample.plain_title "Same");
     x_axis := None; y_axis := None; series := [] |}.

Definition same_title_wb : Workbook :=
  [("First", Sample.sheet1 [same_title_bar; Sample.empty_pie]);
   ("Second", Sample.sheet1 [same_title_pie])].

(** The records of the input sheet of the samples. *)
Definition sample_inputs : list InputCell :=
  [input_cell 0 (Sample.text_row (VStr "width"));
   input_cell 2 (Sample.text_row (VStr "height"))].

(** The input sheet of the samples with one more row at its end. *)
Definition longer_input_sheet : Worksheet :=
  {| _charts := [];
     iter_rows := (iter_rows Sample.input_sheet
                   ++ [Sample.text_row (VStr "depth")])%list;
     cells := fun _ => raise ValueError |}.

Definition longer_parser : ExcelImageParser :=
  {| workbook := [("viktor-input-sheet", longer_input_sheet)];
     charts := []; _charts_map := [] |}.

(** Values of the evaluator and of the parameters, for the samples: cell
    values, with the name of their Python type. *)
Definition type_of (x : value) : string :=
  match x with
  | VNone => "<class 'NoneType'>"
  | VStr _ => "<class 'str'>"
  | VInt _ => "<class 'int'>"
  | VBool _ => "<class 'bool'>"
  end.

(** An output sheet with two named rows and a row without name between. *)
Definition output_sheet : Worksheet :=
  {| _charts := [];
     iter_rows := [Sample.text_row (VStr "area"); Sample.text_row VNone;
                   Sample.text_row (VStr "volume")];
     cells := fun _ => raise ValueError |}.

Definition evaluated_wb : Workbook :=
  [("Sheet1", Sample.sheet1 []); ("viktor-output-sheet", output_sheet)].

Definition output_values : dict value :=
  [("area", VInt 12); ("volume", VInt 24)].

(** An evaluator that returns the workbook above. *)
Definition evaluator (values : dict value) (spreadsheet : Spreadsheet value)
  : result (Workbook * dict value) :=
  ok (evaluated_wb, values).

(** The parameters of the steps: a table of two rows, or of one. *)
Definition table_of (xs : list value) : list (dict value) :=
  map (fun x => [("values", x)]) xs.

Definition step_settings (xs : list value) : Settings value :=
  {| params := {| fields_table := table_of xs; entries := [] |};
     from_app := false;
     has_spreadsheet_calculation := false |}.

(** The parameters of the generated app: one entry for each key. *)
Definition app_settings (items : dict value) : Settings value :=
  {| params := {| fields_table := []; entries := items |};
     from_app := true;
     has_spreadsheet_calculation := false |}.

End Fixture.

(* ================================================================== *)
(** * Predicates for the further properties *)
(* ================================================================== *)

(** The chart types with two axes. *)
Definition xy_chart (chart_type : string) : bool :=
  existsb (String.eqb chart_type) ["lineChart"; "barChart"; "scatterChart"].

(** The data of a trace: [x] and [y], or [labels] and [values]. *)
Definition trace_data (trace : Trace) : list value * list value :=
  match trace with
  | Scatter x y _ _ => (x, y)
  | Bar x y => (x, y)
  | Pie labels values => (labels, values)
  end.

(** Every character of the string satisfies [p]. *)
Fixpoint all_chars (p : ascii -> bool) (s : string) : bool :=
  match s with
  | EmptyString => true
  | String c rest => p c && all_chars p rest
  end.

(** The characters of an identifier: lower-case letters, digits and the
    underscore. *)
Definition identifier_char (c : ascii) : bool :=
  PyChar.isdigit c || PyChar.islower c || Ascii.eqb c "_".

(** The title is the key of a chart of an allowed type. *)
Definition supported (self : ExcelImageParser) (chart_title : string) : bool :=
  match dict_get chart_title (_charts_map self) with
  | inr chart => allowed (tagname chart)
  | inl _ => false
  end.

(* ================================================================== *)
(** * Facts about the string operations *)
(* ================================================================== *)

(** The operations on the strings of the specification. *)
Example replace_examples :
  PyStr.replace "$" "" "$A$1:$A$3" = "A1:A3"
  /\ PyStr.replace "Sheet1!" "" "Sheet1!A1,Sheet1!A5" = "A1,A5"
  /\ PyStr.replace "aa" "b" "aaa" = "ba"
  /\ PyStr.replace "" "-" "ab" = "-a-b-".
Proof. repeat split; reflexivity. Qed.

Example split_examples :
  PyStr.split "," "A1:A3,A5:A7" = ["A1:A3"; "A5:A7"]
  /\ PyStr.split "!" "A1:A5" = ["A1:A5"]
  /\ PyStr.split "," ",a," = [""; "a"; ""]
  /\ PyStr.of_nat 0 = "0" /\ PyStr.of_nat 12 = "12".
Proof. repeat split; reflexivity. Qed.

Example resolver_examples :
  chart_sheet_name "'Sheet 1'!$A$2:$A$10" = "Sheet 1"
  /\ chart_cat_range "'Sheet 1'!$A$2:$A$10" = "A2:A10"
  /\ chart_val_range "'Sheet 1'!$B$2:$B$10" = "$B$2:$B$10"
  /\ chart_cat_range "(Sheet1!$A$1,Sheet1!$A$5)" = "A1:A5"
  /\ chart_sheet_name "" = "" /\ chart_cat_range "" = "".
Proof. repeat split; reflexivity. Qed.

Module PyStrFacts.
Import PyStr.

Lemma contains_app (c : ascii) (s1 s2 : string) :
  contains c (s1 ++ s2) = contains c s1 || contains c s2.
Proof.
  induction s1 as [|a s1 IH]; simpl; [reflexivity|].
  destruct (Ascii.eqb a c); [reflexivity | exact IH].
Qed.

(** A character of a prefix is a character of the string. *)
Lemma prefix_contains (c : ascii) (old s : string) :
  prefix old s = true -> contains c old = true -> contains c s = true.
Proof.
  revert s; induction old as [|a old IH]; intros s Hp Hc; [discriminate|].
  destruct s as [|b s]; simpl in Hp; [discriminate|].
  destruct (ascii_dec a b) as [->|]; [|discriminate].
  simpl in *. destruct (Ascii.eqb b c); [reflexivity | eauto].
Qed.

(** Nothing is replaced when [old] has a character that [s] lacks. *)
Lemma replace_from_absent (c : ascii) (old new s : string) :
  contains c old = true -> contains c s = false ->
  replace_from old new 0 s = s.
Proof.
  intros Hold; induction s as [|a s IH]; intros Hs; [reflexivity|].
  cbn [replace_from].
  destruct (prefix old (String a s)) eqn:Hp.
  - rewrite (prefix_contains c _ _ Hp Hold) in Hs; discriminate.
  - simpl in Hs. destruct (Ascii.eqb a c); [discriminate|].
    now rewrite IH.
Qed.

Lemma replace_absent (c : ascii) (old new s : string) :
  contains c old = true -> contains c s = false -> replace old new s = s.
Proof.
  intros Hold Hs. destruct old; [discriminate|].
  now apply replace_from_absent with c.
Qed.

(** Deleting the matches adds no character. *)
Lemma contains_replace_from (c : ascii) (old s : string) :
  forall skip, contains c (replace_from old "" skip s) = true ->
               contains c s = true.
Proof.
  induction s as [|a s IH]; intros skip H; [discriminate|].
  cbn [replace_from] in H. simpl.
  destruct (Ascii.eqb a c) eqn:E; [reflexivity|].
  destruct skip; [|eauto].
  destruct (prefix old (String a s)); simpl in H; [eauto|].
  rewrite E in H; eauto.
Qed.

Lemma contains_replace (c : ascii) (old s : string) :
  contains c (replace old "" s) = true -> contains c s = true.
Proof.
  destruct old; simpl.
  - induction s as [|a s IH]; simpl; [discriminate|].
    destruct (Ascii.eqb a c); auto.
  - apply contains_replace_from.
Qed.

(** Deleting a character leaves none of it. *)
Lemma replace_char_gone (c : ascii) (s : string) :
  contains c (replace (String c "") "" s) = false.
Proof.
  unfold replace.
  induction s as [|a s IH]; [reflexivity|].
  cbn [replace_from prefix String.length Nat.sub].
  destruct (ascii_dec c a) as [->|Hne].
  - destruct s; exact IH.
  - simpl. destruct (Ascii.eqb a c) eqn:E; [|exact IH].
    apply Ascii.eqb_eq in E; congruence.
Qed.

Lemma split_not_nil (sep : ascii) (s : string) : split sep s <> [].
Proof.
  induction s as [|a s IH]; simpl; [discriminate|].
  destruct (Ascii.eqb a sep); [discriminate|].
  destruct (split sep s); [contradiction | discriminate].
Qed.

(** A string without the separator is its own only segment. *)
Lemma split_absent (sep : ascii) (s : string) :
  contains sep s = false -> split sep s = [s].
Proof.
  induction s as [|a s IH]; simpl; [reflexivity|].
  destruct (Ascii.eqb a sep); [discriminate|].
  intros H; now rewrite IH.
Qed.

(** A segment that lacks the separator, followed by the separator, is
    split off whole. *)
Lemma split_app (sep : ascii) (seg rest : string) :
  contains sep seg = false ->
  split sep (seg ++ String sep rest) = seg :: split sep rest.
Proof.
  induction seg as [|a seg IH]; simpl.
  - now rewrite Ascii.eqb_refl.
  - destruct (Ascii.eqb a sep); [discriminate|].
    intros H; now rewrite IH.
Qed.

Lemma join_cons (sep : ascii) (x y : string) (l : list string) :
  join (String sep "") (x :: y :: l)
  = x ++ String sep (join (String sep "") (y :: l)).
Proof. reflexivity. Qed.

(** Splitting undoes joining, for segments that lack the separator. *)
Lemma split_join (sep : ascii) (seg : string) (segs : list string) :
  Forall (fun x => contains sep x = false) (seg :: segs) ->
  split sep (join (String sep "") (seg :: segs)) = seg :: segs.
Proof.
  revert seg; induction segs as [|seg' segs IH]; intros seg H.
  - inversion H; subst. now apply split_absent.
  - inversion H as [|? ? Hseg Hrest]; subst.
    rewrite join_cons, split_app by assumption.
    now rewrite IH.
Qed.

(** The characters of the segments are characters of the string. *)
Lemma contains_segment (c sep : ascii) (s seg : string) :
  In seg (split sep s) -> contains c seg = true -> contains c s = true.
Proof.
  revert seg; induction s as [|a s IH]; intros seg Hin Hc.
  - destruct Hin as [<-|[]]; discriminate.
  - simpl in Hin |- *. destruct (Ascii.eqb a c) eqn:E; [reflexivity|].
    destruct (Ascii.eqb a sep).
    + destruct Hin as [<-|Hin]; [discriminate | eauto].
    + destruct (split sep s) as [|seg0 segs] eqn:Hs.
      * destruct Hin as [<-|[]]. simpl in Hc. now rewrite E in Hc.
      * destruct Hin as [<-|Hin].
        -- simpl in Hc. rewrite E in Hc. apply (IH seg0); [now left | exact Hc].
        -- apply (IH seg); [now right | exact Hc].
Qed.

Lemma first_in (l : list string) : l <> [] -> In (first l) l.
Proof. destruct l; [contradiction | now left]. Qed.

Lemma last_in (l : list string) : l <> [] -> In (last l) l.
Proof.
  unfold last. induction l as [|x l IH]; [contradiction|].
  intros _. destruct l; [now left|].
  right. apply IH. discriminate.
Qed.

Lemma last_app (l : list string) (x : string) : last (l ++ [x]) = x.
Proof. unfold last. apply last_last. Qed.

Lemma append_assoc (s1 s2 s3 : string) : (s1 ++ s2) ++ s3 = s1 ++ (s2 ++ s3).
Proof. induction s1 as [|a s1 IH]; simpl; [reflexivity | now rewrite IH]. Qed.

Lemma prefix_app_self (old rest : string) : prefix old (old ++ rest) = true.
Proof.
  induction old as [|a old IH]; simpl; [now destruct rest|].
  destruct (ascii_dec a a); [exact IH | contradiction].
Qed.

(** The characters of a match that are still to be dropped are dropped. *)
Lemma replace_from_skip (old new s1 s2 : string) :
  replace_from old new (String.length s1) (s1 ++ s2) = replace_from old new 0 s2.
Proof.
  induction s1 as [|a s1 IH]; simpl; [|exact IH].
  destruct s2; reflexivity.
Qed.

(** A match at the head is deleted. *)
Lemma replace_from_head (old rest : string) :
  old <> "" ->
  replace_from old "" 0 (old ++ rest) = replace_from old "" 0 rest.
Proof.
  destruct old as [|a old]; [contradiction|]. intros _.
  change (String a old ++ rest) with (String a (old ++ rest)).
  cbn [replace_from].
  change (String a (old ++ rest)) with (String a old ++ rest).
  rewrite prefix_app_self.
  cbn [String.length Nat.sub]. rewrite Nat.sub_0_r.
  apply replace_from_skip.
Qed.

(** No match starts inside a segment that lacks a character [c] of [old],
    when [old] lacks the separator that ends the segment. *)
Lemma prefix_in_segment (c sep : ascii) (old seg rest : string) :
  contains c old = true -> contains sep old = false ->
  contains c seg = false ->
  prefix old (seg ++ String sep rest) = false.
Proof.
  revert old; induction seg as [|b seg IH]; intros old Hc Hsep Hseg.
  - destruct old as [|a old]; [discriminate|]. simpl in *.
    destruct (ascii_dec a sep) as [->|]; [|reflexivity].
    now rewrite Ascii.eqb_refl in Hsep.
  - destruct old as [|a old]; [discriminate|]. simpl in *.
    destruct (ascii_dec a b) as [->|]; [|reflexivity].
    destruct (Ascii.eqb b c); [discriminate|].
    destruct (Ascii.eqb b sep); [discriminate|].
    now apply IH.
Qed.

Lemma replace_from_segment (c sep : ascii) (old seg rest : string) :
  contains c old = true -> contains sep old = false ->
  contains c seg = false ->
  replace_from old "" 0 (seg ++ String sep rest)
  = seg ++ String sep (replace_from old "" 0 rest).
Proof.
  intros Hc Hsep. induction seg as [|b seg IH]; intros Hseg.
  - pose proof (prefix_in_segment c sep old "" rest Hc Hsep Hseg) as Hp.
    change ("" ++ String sep rest) with (String sep rest) in Hp |- *.
    cbn [replace_from]. now rewrite Hp.
  - change (String b seg ++ String sep rest)
      with (String b (seg ++ String sep rest)).
    pose proof (prefix_in_segment c sep old (String b seg) rest Hc Hsep Hseg)
      as Hp.
    change (String b seg ++ String sep rest)
      with (String b (seg ++ String sep rest)) in Hp.
    cbn [replace_from]. rewrite Hp.
    simpl in Hseg. destruct (Ascii.eqb b c); [discriminate|].
    simpl. now rewrite IH.
Qed.

(** Deleting the prefix [old] of every segment of a joined string. *)
Lemma replace_from_join (c sep : ascii) (old seg : string) (segs : list string) :
  contains c old = true -> contains sep old = false ->
  Forall (fun x => contains c x = false) (seg :: segs) ->
  replace_from old "" 0 (join (String sep "") (map (String.append old) (seg :: segs)))
  = join (String sep "") (seg :: segs).
Proof.
  intros Hc Hsep.
  assert (Hne : old <> "") by (destruct old; [discriminate | discriminate]).
  revert seg; induction segs as [|seg' segs IH]; intros seg H;
    inversion H as [|? ? Hseg Hrest]; subst.
  - cbn [map join concat].
    rewrite replace_from_head by assumption.
    now apply replace_from_absent with c.
  - cbn [map]. rewrite !join_cons.
    rewrite append_assoc, replace_from_head by assumption.
    rewrite (replace_from_segment c sep) by assumption.
    f_equal. f_equal. now apply IH.
Qed.

(** Deleting a character goes through an append and through a join. *)
Lemma delete_app (c : ascii) (s1 s2 : string) :
  replace (String c "") "" (s1 ++ s2)
  = replace (String c "") "" s1 ++ replace (String c "") "" s2.
Proof.
  unfold replace. induction s1 as [|a s1 IH]; [reflexivity|].
  change (String a s1 ++ s2) with (String a (s1 ++ s2)).
  cbn [replace_from prefix String.length Nat.sub].
  destruct (ascii_dec c a).
  - destruct (s1 ++ s2), s1; simpl; exact IH || (simpl in IH; exact IH).
  - simpl. now rewrite IH.
Qed.

Lemma delete_join (c sep : ascii) (seg : string) (segs : list string) :
  c <> sep ->
  replace (String c "") "" (join (String sep "") (seg :: segs))
  = join (String sep "") (map (replace (String c "") "") (seg :: segs)).
Proof.
  intros Hne. revert seg; induction segs as [|seg' segs IH]; intros seg.
  - reflexivity.
  - cbn [map]. rewrite !join_cons, delete_app.
    f_equal.
    change (String sep (join (String sep "") (seg' :: segs)))
      with (String sep "" ++ join (String sep "") (seg' :: segs)).
    rewrite delete_app, IH.
    unfold replace at 1. cbn [replace_from prefix].
    destruct (ascii_dec c sep); [contradiction | reflexivity].
Qed.

End PyStrFacts.

(* ================================================================== *)
(** * The range reference resolver *)
(* ================================================================== *)

Module Resolver.
Import PyStr PyStrFacts.
Local Arguments Ascii.eqb : simpl never.

Lemma lacks_In (cs : list ascii) (x : string) (c : ascii) :
  lacks cs x = true -> In c cs -> contains c x = false.
Proof.
  unfold lacks. rewrite forallb_forall. intros H Hin.
  now apply negb_true_iff, H.
Qed.

Lemma lacks_intro (cs : list ascii) (x : string) :
  (forall c, In c cs -> contains c x = false) -> lacks cs x = true.
Proof.
  unfold lacks. rewrite forallb_forall. intros H c Hin.
  now apply negb_true_iff, H.
Qed.

(** The characters of the collapsed range are those of the range body,
    and the colon. *)
Lemma contains_collapse (c : ascii) (x : string) :
  c <> ":"%char -> contains c (collapse x) = true -> contains c x = true.
Proof.
  intros Hc. unfold collapse.
  destruct (contains "," x); [|auto].
  rewrite contains_app. simpl.
  destruct (Ascii.eqb ":" c) eqn:E.
  { apply Ascii.eqb_eq in E; congruence. }
  intros H. apply orb_true_iff in H as [H|H].
  - eapply contains_segment; [|exact H].
    apply first_in, split_not_nil.
  - eapply contains_segment; [|exact H].
    apply last_in, split_not_nil.
Qed.

Lemma contains_strip_wrappers (c : ascii) (input : string) :
  contains c (strip_wrappers input) = true -> contains c input = true.
Proof.
  unfold strip_wrappers. intros H.
  now repeat apply contains_replace in H.
Qed.

(** The wrappers are gone after [strip_wrappers]. *)
Lemma strip_wrappers_clean (input : string) :
  lacks ["("; ")"; "'"]%char (strip_wrappers input) = true.
Proof.
  apply lacks_intro. intros c Hin.
  destruct (contains c (strip_wrappers input)) eqn:H; [|reflexivity].
  unfold strip_wrappers in H.
  destruct Hin as [<-|[<-|[<-|[]]]].
  - do 2 apply contains_replace in H.
    now rewrite replace_char_gone in H.
  - apply contains_replace in H.
    now rewrite replace_char_gone in H.
  - now rewrite replace_char_gone in H.
Qed.

(** Neither pipeline brings a character back. *)
Lemma contains_cat_range (c : ascii) (input : string) :
  c <> ":"%char -> contains c (chart_cat_range input) = true ->
  contains c (strip_wrappers input) = true.
Proof.
  intros Hc H. apply contains_collapse in H; [|assumption].
  unfold cat_range_body in H.
  now do 2 apply contains_replace in H.
Qed.

Lemma contains_val_range (c : ascii) (input : string) :
  c <> ":"%char -> contains c (chart_val_range input) = true ->
  contains c (strip_wrappers input) = true.
Proof.
  intros Hc H. apply contains_collapse in H; [|assumption].
  unfold val_range_body in H.
  now apply contains_replace in H.
Qed.

(** The category range has no [$], parenthesis or quote. *)
Lemma chart_cat_range_clean (input : string) :
  lacks ["$"; "("; ")"; "'"]%char (chart_cat_range input) = true.
Proof.
  apply lacks_intro. intros c Hin.
  destruct (contains c (chart_cat_range input)) eqn:H; [|reflexivity].
  destruct Hin as [<-|Hin].
  - apply contains_collapse in H; [|discriminate].
    unfold cat_range_body in H. now rewrite replace_char_gone in H.
  - assert (Hc : c <> ":"%char)
      by (destruct Hin as [<-|[<-|[<-|[]]]]; discriminate).
    apply contains_cat_range in H; [|exact Hc].
    now rewrite (lacks_In _ _ _ (strip_wrappers_clean input) Hin) in H.
Qed.

(** The value range has no parenthesis or quote. *)
Lemma chart_val_range_clean (input : string) :
  lacks ["("; ")"; "'"]%char (chart_val_range input) = true.
Proof.
  apply lacks_intro. intros c Hin.
  destruct (contains c (chart_val_range input)) eqn:H; [|reflexivity].
  assert (Hc : c <> ":"%char)
    by (destruct Hin as [<-|[<-|[<-|[]]]]; discriminate).
  apply contains_val_range in H; [|exact Hc].
  now rewrite (lacks_In _ _ _ (strip_wrappers_clean input) Hin) in H.
Qed.

(** On a string without wrappers [strip_wrappers] changes nothing. *)
Lemma strip_wrappers_id (x : string) :
  lacks ["("; ")"; "'"]%char x = true -> strip_wrappers x = x.
Proof.
  intros H. unfold strip_wrappers.
  rewrite (replace_absent "(" "(" "" x);
    [|reflexivity | apply (lacks_In _ _ _ H); simpl; tauto].
  rewrite (replace_absent ")" ")" "" x);
    [|reflexivity | apply (lacks_In _ _ _ H); simpl; tauto].
  apply (replace_absent "'" "'" "" x);
    [reflexivity | apply (lacks_In _ _ _ H); simpl; tauto].
Qed.

Lemma replace_nonempty (old new s : string) :
  old <> "" -> replace old new s = replace_from old new 0 s.
Proof. destruct old; [contradiction | reflexivity]. Qed.

Lemma union_reference_eq (sh : string) (segs : list string) :
  union_reference sh segs
  = join "," (map (String.append (sh ++ "!")) segs).
Proof.
  unfold union_reference. f_equal. apply map_ext.
  intros seg. now rewrite append_assoc.
Qed.

(** The sheet name of a multi-segment reference is that of its first
    segment. *)
Lemma sheet_name_union (sh seg : string) (segs : list string) :
  contains "!" sh = false ->
  first (split "!" (union_reference sh (seg :: segs))) = sh.
Proof.
  intros Hsh. unfold union_reference. cbn [map].
  destruct segs as [|seg' segs].
  - cbn [map join concat].
    change (sh ++ "!" ++ seg) with (sh ++ String "!" seg).
    now rewrite split_app.
  - cbn [map]. rewrite join_cons, append_assoc.
    change ("!" ++ seg) with (String "!" seg).
    change (String "!" seg ++ ?x) with (String "!" (seg ++ x)).
    now rewrite split_app.
Qed.

(** Every [sh!] prefix of a multi-segment reference is deleted. *)
Lemma strip_prefix_union (sh seg : string) (segs : list string) :
  part sh = true -> Forall (fun x => part x = true) (seg :: segs) ->
  replace (sh ++ "!") "" (union_reference sh (seg :: segs))
  = join "," (seg :: segs).
Proof.
  intros Hsh Hsegs.
  assert (Hne : sh ++ "!" <> "") by (destruct sh; discriminate).
  rewrite replace_nonempty, union_reference_eq by assumption.
  apply replace_from_join with "!"%char.
  - rewrite contains_app. apply orb_true_r.
  - rewrite contains_app, (lacks_In _ _ ","%char Hsh) by (simpl; tauto).
    reflexivity.
  - eapply Forall_impl; [|exact Hsegs].
    intros x Hx. apply (lacks_In _ _ _ Hx). simpl; tauto.
Qed.

(** The collapse of a joined list of segments: the first segment, a
    colon, the last segment. *)
Lemma collapse_join (seg1 segn : string) (middle : list string) :
  Forall (fun x => contains "," x = false) (seg1 :: middle ++ [segn]) ->
  collapse (join "," (seg1 :: middle ++ [segn])) = seg1 ++ ":" ++ segn.
Proof.
  intros H. unfold collapse.
  rewrite (split_join _ _ _ H).
  replace (contains "," (join "," (seg1 :: middle ++ [segn]))) with true.
  - cbn [first hd]. f_equal. f_equal.
    change (seg1 :: middle ++ [segn])%list
      with ((seg1 :: middle) ++ [segn])%list.
    apply last_app.
  - destruct (middle ++ [segn])%list as [|y l] eqn:E.
    + now destruct middle.
    + rewrite join_cons, contains_app. simpl. now rewrite orb_true_r.
Qed.

End Resolver.

(** C9. Range normalization is idempotent on already-normalized input: a
    plain range string, with no parentheses, quotes, sheet prefix, [$]
    markers or commas, goes through the strip-and-collapse pipeline of the
    category range, and through that of the value range, unchanged. *)
Theorem C9_plain_range_unchanged (x : string) :
  plain x = true ->
  chart_cat_range x = x /\ chart_val_range x = x.
Proof.
  intros H. unfold plain in H.
  assert (Hc : forall c, In c ["("; ")"; "'"; "!"; "$"; ","]%char ->
                         PyStr.contains c x = false)
    by (intros c; apply Resolver.lacks_In, H).
  assert (Hs : strip_wrappers x = x).
  { apply Resolver.strip_wrappers_id, Resolver.lacks_intro.
    intros c Hin. apply Hc. simpl in *. tauto. }
  assert (Hn : chart_sheet_name x = x).
  { unfold chart_sheet_name. rewrite Hs.
    rewrite PyStrFacts.split_absent; [reflexivity|].
    apply Hc. simpl. tauto. }
  assert (Hp : PyStr.replace (x ++ "!") "" x = x).
  { apply PyStrFacts.replace_absent with "!"%char.
    - rewrite PyStrFacts.contains_app. apply orb_true_r.
    - apply Hc. simpl. tauto. }
  unfold chart_cat_range, chart_val_range, cat_range_body, val_range_body.
  rewrite Hn, Hs, Hp.
  rewrite (PyStrFacts.replace_absent "$" "$" "" x);
    [|reflexivity | apply Hc; simpl; tauto].
  unfold collapse. rewrite (Hc ","%char) by (simpl; tauto).
  split; reflexivity.
Qed.

Lemma C9_plain_range_unchanged_witness :
  plain "A1:A5" = true
  /\ chart_cat_range "A1:A5" = "A1:A5" /\ chart_val_range "A1:A5" = "A1:A5".
Proof.
  split; [reflexivity | apply (C9_plain_range_unchanged "A1:A5"); reflexivity].
Defined.

(** C4. The value reference of a series keeps its [$] markers: the value
    pipeline (lines 273-279) has no [.replace('$', "")], so the range
    string that indexes the workbook for ["Sheet1!$B$1:$B$5"] is
    ["$B$1:$B$5"]; the category pipeline (lines 250-257) gives ["B1:B5"]
    for the same reference. *)
Theorem C4_value_range_keeps_dollar :
  chart_val_range "Sheet1!$B$1:$B$5" = "$B$1:$B$5"
  /\ PyStr.contains "$" (chart_val_range "Sheet1!$B$1:$B$5") = true
  /\ chart_cat_range "Sheet1!$B$1:$B$5" = "B1:B5".
Proof. repeat split; reflexivity. Qed.

(** What line 258 and line 280 make of a multi-segment reference, which
    after the stripping of parentheses and quotes reads
    [sh!seg1,...,sh!segn] with [n >= 2]: the whole first segment, a colon
    and the whole last segment, with the [$] markers deleted for a category
    reference and kept for a value reference.  This is a span of cells only
    when the two segments are single cells. *)
Lemma union_joins_first_and_last_segment
        (input sh seg1 segn : string) (middle : list string) :
  part sh = true ->
  Forall (fun seg => part seg = true) (seg1 :: middle ++ [segn]) ->
  strip_wrappers input = union_reference sh (seg1 :: middle ++ [segn]) ->
  chart_sheet_name input = sh
  /\ chart_cat_range input
     = PyStr.replace "$" "" seg1 ++ ":" ++ PyStr.replace "$" "" segn
  /\ chart_val_range input = seg1 ++ ":" ++ segn.
Proof.
  intros Hsh Hsegs Hin.
  assert (Hname : chart_sheet_name input = sh).
  { unfold chart_sheet_name. rewrite Hin.
    apply Resolver.sheet_name_union, (Resolver.lacks_In _ _ _ Hsh).
    simpl; tauto. }
  assert (Hbody : val_range_body input = PyStr.join "," (seg1 :: middle ++ [segn])).
  { unfold val_range_body. rewrite Hname, Hin.
    now apply Resolver.strip_prefix_union. }
  assert (Hcomma : Forall (fun x => PyStr.contains "," x = false)
                          (seg1 :: middle ++ [segn])).
  { eapply Forall_impl; [|exact Hsegs].
    intros x Hx. apply (Resolver.lacks_In _ _ _ Hx). simpl; tauto. }
  split; [exact Hname|]. split.
  - unfold chart_cat_range, cat_range_body.
    fold (val_range_body input). rewrite Hbody.
    rewrite PyStrFacts.delete_join by discriminate.
    cbn [map]. rewrite map_app. cbn [map].
    apply Resolver.collapse_join.
    rewrite <- (map_last (PyStr.replace "$" "")), <- map_cons.
    apply Forall_map. eapply Forall_impl; [|exact Hcomma].
    intros x Hx. cbv beta.
    destruct (PyStr.contains "," (PyStr.replace "$" "" x)) eqn:E; [|reflexivity].
    apply PyStrFacts.contains_replace in E. congruence.
  - unfold chart_val_range. rewrite Hbody.
    now apply Resolver.collapse_join.
Qed.

Example union_of_two_blocks :
  chart_sheet_name "Sheet1!$A$1:$A$3,Sheet1!$A$5:$A$7" = "Sheet1"
  /\ chart_cat_range "Sheet1!$A$1:$A$3,Sheet1!$A$5:$A$7" = "A1:A3:A5:A7"
  /\ chart_val_range "Sheet1!$A$1:$A$3,Sheet1!$A$5:$A$7" = "$A$1:$A$3:$A$5:$A$7".
Proof.
  apply (union_joins_first_and_last_segment
           "Sheet1!$A$1:$A$3,Sheet1!$A$5:$A$7" "Sheet1" "$A$1:$A$3" "$A$5:$A$7" []).
  - reflexivity.
  - repeat constructor.
  - reflexivity.
Qed.

(** C2. The reference ["Sheet1!$A$1:$A$3,Sheet1!$A$5:$A$7"] of two blocks of
    cells: line 258 joins the whole first segment and the whole last
    segment with a colon, which gives ["A1:A3:A5:A7"] for the category
    range (and ["$A$1:$A$3:$A$5:$A$7"] for the value range, line 280), not
    the span ["A1:A7"] from the start of the first block to the end of the
    last.  The same lines do give the span when the segments are single
    cells: ["(Sheet1!$A$1,Sheet1!$A$5)"] resolves to ["A1:A5"]. *)
Theorem C2_union_of_blocks_is_not_collapsed_to_a_span :
  chart_sheet_name "Sheet1!$A$1:$A$3,Sheet1!$A$5:$A$7" = "Sheet1"
  /\ chart_cat_range "Sheet1!$A$1:$A$3,Sheet1!$A$5:$A$7" = "A1:A3:A5:A7"
  /\ chart_cat_range "Sheet1!$A$1:$A$3,Sheet1!$A$5:$A$7" <> "A1:A7"
  /\ chart_val_range "Sheet1!$A$1:$A$3,Sheet1!$A$5:$A$7" = "$A$1:$A$3:$A$5:$A$7"
  /\ chart_cat_range "(Sheet1!$A$1,Sheet1!$A$5)" = "A1:A5".
Proof.
  split; [reflexivity|]. split; [reflexivity|]. split; [discriminate|].
  split; reflexivity.
Qed.

(* ================================================================== *)
(** * Chart normalization: [_parse_chart_data] *)
(* ================================================================== *)

Module Normalizer.

(** The three ways [_parse_chart_data] ends. *)
Lemma parse_cases (self : ExcelImageParser) (t : string) (wb : Workbook)
      (log : list event) :
  _parse_chart_data self t wb log =
  match dict_get t (_charts_map self) with
  | inl e => (inl e, log)
  | inr chart =>
      if allowed (tagname chart)
      then match chart_description t chart wb with
           | inl e => (inl e, log)
           | inr cd => (inr (Some cd), log)
           end
      else (inr None, (log ++ [Warning (unsupported_warning t)])%list)
  end.
Proof.
  unfold _parse_chart_data, bind, lift, ret, emit.
  destruct (dict_get t (_charts_map self)) as [e|chart]; [reflexivity|].
  destruct (allowed (tagname chart)); simpl; [|reflexivity].
  now destruct (chart_description t chart wb).
Qed.

(** The series loop cannot get past a series: what the body computes is
    appended to the raw series that the loop variable holds. *)
Lemma series_loop_cons (ct : string) (wb : Workbook) (s : Series)
      (rest : list Series) (series : series_var) (carry : Carry) :
  series_loop ct wb (s :: rest) series carry =
  match series_record ct wb s carry with
  | inl e => raise e
  | inr _ => raise (AttributeError "append")
  end.
Proof.
  cbn [series_loop]. unfold rbind.
  destruct (series_record ct wb s carry) as [e|[carry' ser]]; reflexivity.
Qed.

Lemma series_loop_ok (ct : string) (wb : Workbook) (raw : list Series)
      (series result : series_var) (carry : Carry) :
  series_loop ct wb raw series carry = ok result ->
  raw = [] /\ result = series.
Proof.
  destruct raw as [|s rest].
  - simpl. intros H; inversion H; auto.
  - rewrite series_loop_cons.
    destruct (series_record ct wb s carry); discriminate.
Qed.

(** A chart description is only ever returned for a chart without
    series, and its series are the empty list of line 197. *)
Lemma chart_description_ok (t : string) (chart : Chart) (wb : Workbook)
      (cd : ChartData) :
  chart_description t chart wb = ok cd ->
  series chart = [] /\ cd_series cd = SeriesList [].
Proof.
  unfold chart_description, rbind.
  destruct (axis_titles chart) as [e|[xt yt]]; [discriminate|].
  destruct (series_loop _ _ _ _ _) as [e|result] eqn:Hloop; [discriminate|].
  apply series_loop_ok in Hloop as [Hraw ->].
  intros H; inversion H; subst; auto.
Qed.

(** With one series or more, [_parse_chart_data] raises. *)
Lemma parse_with_series_raises (self : ExcelImageParser) (t : string)
      (wb : Workbook) (log : list event) (chart : Chart) :
  dict_get t (_charts_map self) = ok chart ->
  allowed (tagname chart) = true ->
  series chart <> [] ->
  exists e, _parse_chart_data self t wb log = (raise e, log).
Proof.
  intros Hget Hallowed Hseries. rewrite parse_cases, Hget.
  unfold ok. rewrite Hallowed.
  destruct (chart_description t chart wb) as [e|cd] eqn:Hcd; [now exists e|].
  apply chart_description_ok in Hcd as [Hnil _]. contradiction.
Qed.

(** The carry-forward in the body of the loop: after the body has run on
    a series, a series without category source reads the same category
    cells, and leaves the carried reference as it is. *)
Lemma carry_forward_in_body (ct : string) (wb : Workbook) (s1 s2 : Series)
      (carry0 carry1 carry2 : Carry) (ser1 ser2 : SeriesRecord) :
  String.eqb ct "scatterChart" = false ->
  cat s2 = None ->
  series_record ct wb s1 carry0 = ok (carry1, ser1) ->
  series_record ct wb s2 carry1 = ok (carry2, ser2) ->
  category_axis_data ser2 = category_axis_data ser1
  /\ input_cat_range carry2 = input_cat_range carry1.
Proof.
  intros Hct Hcat H1 H2. unfold series_record in H1, H2.
  rewrite Hct in H1, H2. rewrite Hcat in H2.
  cbn [read_category] in H2. unfold rbind, ok in H1, H2.
  destruct (read_category (cat s1) carry0) as [e|c1]; [discriminate|].
  destruct (read_value (val s1)) as [e|[vr1 vf1]]; [discriminate|].
  destruct (dereference wb (chart_sheet_name (input_cat_range c1)) _)
    as [e|cat1] eqn:Hc1; [discriminate|].
  destruct (dereference wb (chart_sheet_name vr1) _) as [e|val1];
    [discriminate|].
  inversion H1; subst; clear H1. cbn [input_cat_range] in H2.
  rewrite Hc1 in H2.
  destruct (read_value (val s2)) as [e|[vr2 vf2]]; [discriminate|].
  destruct (dereference wb (chart_sheet_name vr2) _) as [e|val2];
    [discriminate|].
  inversion H2; subst. split; reflexivity.
Qed.

End Normalizer.

(** C1. A well-formed line chart with one series: the body of the loop
    computes the series record, and [series.append(ser)] of line 295 then
    raises, because the loop variable of line 215 has rebound [series] to
    the raw series.  [_parse_chart_data] returns no chart record. *)
Theorem C1_one_series_chart_raises :
  series_record "lineChart" (Sample.wb_of [Sample.one_series_chart])
                Sample.S1 initial_carry
  = ok ({| input_cat_range := "Sheet1!$A$1:$A$5"; input_cat_format := None |},
        {| category_axis_data := Sample.labels;
           value_axis_data := Sample.sales;
           category_value_format := None;
           values_value_format := None;
           series_name := None |})
  /\ _parse_chart_data (Sample.parser_of [Sample.one_series_chart]) "Sales"
                       (Sample.wb_of [Sample.one_series_chart]) []
     = (raise (AttributeError "append"), []).
Proof. split; reflexivity. Qed.

(** C5. A line chart with a series S1 that has a category reference and a
    series S2 that has none: the extraction raises at the end of the
    iteration for S1 (line 295), so the iteration for S2, which would reuse
    the reference of S1, is not reached. *)
Theorem C5_second_series_not_reached :
  _parse_chart_data (Sample.parser_of [Sample.two_series_chart]) "Sales and costs"
                    (Sample.wb_of [Sample.two_series_chart]) []
  = (raise (AttributeError "append"), []).
Proof. reflexivity. Qed.

(* ================================================================== *)
(** * Lookup by title and the extraction round *)
(* ================================================================== *)

Module Round.

Lemma dict_get_missing {V} (k : string) (d : dict V) :
  dict_mem k d = false -> dict_get k d = raise (KeyError k).
Proof.
  unfold dict_mem. induction d as [|[k' x] d IH]; simpl; [reflexivity|].
  destruct (String.eqb k' k); [discriminate | exact IH].
Qed.

Lemma dict_get_present {V} (k : string) (d : dict V) (x : V) :
  dict_get k d = ok x -> dict_mem k d = true.
Proof.
  unfold dict_mem. induction d as [|[k' y] d IH]; simpl; [discriminate|].
  destruct (String.eqb k' k); [reflexivity | exact IH].
Qed.

(** A title that is not in the catalog: the lookup of line 194 raises
    [KeyError]; the workbook is not closed and no [UserError] is made. *)
Lemma missing_title_KeyError
      (evaluate : ExcelImageParser -> result Workbook)
      (self : ExcelImageParser) (wb : Workbook) (t : string) (log : list event) :
  evaluate self = ok wb ->
  dict_mem t (_charts_map self) = false ->
  get_plotly_figure_by_title evaluate self t log = (raise (KeyError t), log).
Proof.
  intros Heval Hmem. unfold get_plotly_figure_by_title, bind, lift.
  rewrite Heval. unfold ok.
  rewrite Normalizer.parse_cases, (dict_get_missing _ _ Hmem).
  reflexivity.
Qed.



End Round.

(** A round over a chart with a dangling reference. *)
Example round_with_dangling_reference :
  get_figures_from_excel_file Sample.evaluate
    (Sample.parser_of [Sample.dangling_chart]) []
  = (raise (KeyError "Worksheet Gone does not exist."), []).
Proof. reflexivity. Qed.

(** A round over a pie chart without series and a chart of another type. *)
Example round_with_skipped_chart :
  map (fun cf => chart_title (fst cf))
      (match fst (get_figures_from_excel_file Sample.evaluate
                    (Sample.parser_of [Sample.empty_pie; Sample.radar_chart]) []) with
       | inr figures => figures
       | inl _ => []
       end)
  = ["Untitled 1"]
  /\ snd (get_figures_from_excel_file Sample.evaluate
            (Sample.parser_of [Sample.empty_pie; Sample.radar_chart]) [])
     = [Warning (unsupported_warning "Radar"); Close].
Proof. split; reflexivity. Qed.

(** C3. A title that is not a key of the catalog: the call raises the
    [KeyError] of the lookup [self._charts_map[chart_title]] (line 194),
    not the [UserError] "No figure found with title: ..." of line 170, and
    [wb.close()] is not reached. *)
Theorem C3_missing_title_raises_KeyError :
  dict_mem "Missing" (_charts_map (Sample.parser_of [Sample.one_series_chart])) = false
  /\ get_plotly_figure_by_title Sample.evaluate
       (Sample.parser_of [Sample.one_series_chart]) "Missing" []
     = (raise (KeyError "Missing"), []).
Proof. split; reflexivity. Qed.

(** C10 (as amended). For a chart that is in the catalog with a type tag
    outside [ALLOWED_FIGURE_TYPES]: when the evaluation of the spreadsheet
    gives a workbook, [get_plotly_figure_by_title] emits the warning of the
    unsupported type, closes the workbook, and raises the [UserError]
    "No figure found with title: {title}"; when the evaluation raises, that
    exception leaves the method and nothing is emitted. *)
Theorem C10_unsupported_type_reported_as_not_found
        (evaluate : ExcelImageParser -> result Workbook)
        (self : ExcelImageParser) (t : string) (chart : Chart)
        (log : list event) :
  dict_get t (_charts_map self) = ok chart ->
  allowed (tagname chart) = false ->
  get_plotly_figure_by_title evaluate self t log
  = match evaluate self with
    | inr _ =>
        (raise (UserError ("No figure found with title: " ++ t)),
         (log ++ [Warning (unsupported_warning t); Close])%list)
    | inl e => (raise e, log)
    end.
Proof.
  intros Hget Hallowed.
  unfold get_plotly_figure_by_title, bind, lift.
  destruct (evaluate self) as [e|wb]; [reflexivity|].
  rewrite Normalizer.parse_cases, Hget. unfold ok. rewrite Hallowed.
  unfold emit, throw. now rewrite <- app_assoc.
Qed.

Lemma C10_unsupported_type_reported_as_not_found_witness :
  get_plotly_figure_by_title Sample.evaluate
    (Sample.parser_of [Sample.empty_pie; Sample.radar_chart]) "Radar" []
  = (raise (UserError "No figure found with title: Radar"),
     [Warning "Chart titled 'Radar' is not of one of the allowed types and can not be visualised";
      Close]).
Proof.
  apply (C10_unsupported_type_reported_as_not_found
           Sample.evaluate (Sample.parser_of [Sample.empty_pie; Sample.radar_chart])
           "Radar" Sample.radar_chart []); reflexivity.
Defined.

(** The same call when the evaluation raises. *)
Example unsupported_type_with_failing_evaluation :
  get_plotly_figure_by_title Sample.failing_evaluation
    (Sample.parser_of [Sample.empty_pie; Sample.radar_chart]) "Radar" []
  = (raise (UserError "evaluation failed"), []).
Proof. reflexivity. Qed.

(** C10, the claim as stated fails: the message of the unsupported chart
    is not the message of a missing title, for a missing title raises the
    [KeyError] of the lookup; and with an evaluation that raises, the call
    for the unsupported chart raises that exception instead. *)
Lemma C10_counterexample :
  ~ reported_like_a_missing_title
      Sample.evaluate
      (Sample.parser_of [Sample.empty_pie; Sample.radar_chart]) "Radar"
  /\ ~ reported_like_a_missing_title
        Sample.failing_evaluation
        (Sample.parser_of [Sample.empty_pie; Sample.radar_chart]) "Radar".
Proof.
  split; intros H.
  - destruct (H []) as [_ Hmissing].
    specialize (Hmissing "Missing" eq_refl). discriminate.
  - destruct (H []) as [Hradar _]. discriminate.
Qed.




(* ================================================================== *)
(** * The input table: [get_input_cells] *)
(* ================================================================== *)

Module Inputs.

Lemma enumerate_cons {A} (start : nat) (x : A) (l : list A) :
  enumerate start (x :: l) = (start, x) :: enumerate (S start) l.
Proof. reflexivity. Qed.

(** The loop with its accumulator, in closed form. *)
Lemma input_rows_loop_spec (rows : list Row) :
  forall (index : nat) (inputs : list InputCell),
  input_rows_loop index rows inputs
  = (inputs ++
     map (fun ir => input_cell (fst ir) (snd ir))
         (filter (fun ir => truthy (cell0 (snd ir))) (enumerate index rows)))%list.
Proof.
  induction rows as [|row rows IH]; intros index inputs.
  - simpl. now rewrite app_nil_r.
  - rewrite enumerate_cons. cbn [input_rows_loop filter snd].
    rewrite IH. destruct (truthy (cell0 row)); [|reflexivity].
    cbn [map fst snd]. now rewrite <- app_assoc.
Qed.

End Inputs.

(** C8 (as amended). [get_input_cells] gives, in row order, one record for
    each row from row 2 on whose first cell is non-empty, and the key of
    the record is ["input_{i}"] where [i] is the 0-based index of the row
    among all the rows iterated, the rows with an empty first cell
    included. *)
Theorem C8_key_is_index_among_all_rows (self : ExcelImageParser) (ws : Worksheet) :
  sheet (workbook self) "viktor-input-sheet" = ok ws ->
  get_input_cells self
  = ok (map (fun ir => input_cell (fst ir) (snd ir))
            (filter (fun ir => truthy (cell0 (snd ir)))
                    (enumerate 0 (iter_rows ws))))
  /\ forall i row, key (input_cell i row) = "input_" ++ PyStr.of_nat i.
Proof.
  intros Hws. split; [|reflexivity].
  unfold get_input_cells, rbind. rewrite Hws. unfold ok.
  now rewrite Inputs.input_rows_loop_spec.
Qed.

Lemma C8_key_is_index_among_all_rows_witness :
  get_input_cells (Sample.parser_of [])
  = ok (map (fun ir => input_cell (fst ir) (snd ir))
            (filter (fun ir => truthy (cell0 (snd ir)))
                    (enumerate 0 (iter_rows Sample.input_sheet))))
  /\ forall i row, key (input_cell i row) = "input_" ++ PyStr.of_nat i.
Proof.
  apply (C8_key_is_index_among_all_rows (Sample.parser_of []) Sample.input_sheet).
  reflexivity.
Defined.

(** C8, the claim as stated fails: with a row without name between two
    rows with a name, the second record has the key ["input_2"], not
    ["input_1"]. *)
Lemma C8_counterexample :
  exists inputs,
    get_input_cells (Sample.parser_of []) = ok inputs
    /\ map key inputs = ["input_0"; "input_2"]
    /\ ~ keys_count_included_rows inputs.
Proof.
  eexists. split; [reflexivity|]. split; [reflexivity|].
  intros H. specialize (H 1 _ eq_refl). discriminate.
Qed.

(* ================================================================== *)
(** * The chart catalog: [__init__] *)
(* ================================================================== *)

Module CatalogFacts.

Lemma untitled_app (cs1 cs2 : list Chart) :
  untitled (cs1 ++ cs2) = untitled cs1 + untitled cs2.
Proof. unfold untitled. now rewrite filter_app, length_app. Qed.

Lemma untitled_cons (chart : Chart) (cs : list Chart) :
  untitled (chart :: cs)
  = (if has_title chart then 0 else 1) + untitled cs.
Proof. unfold untitled. simpl. now destruct (has_title chart). Qed.

Lemma combine_app {A B} (l1 l2 : list A) (m1 m2 : list B) :
  List.length l1 = List.length m1 ->
  combine (l1 ++ l2) (m1 ++ m2) = (combine l1 m1 ++ combine l2 m2)%list.
Proof.
  revert m1; induction l1 as [|a l1 IH]; intros [|b m1] H;
    try discriminate; [reflexivity|].
  simpl. f_equal. apply IH. now inversion H.
Qed.

Lemma assign_app (d : dict Chart) (e1 e2 : list (string * Chart)) :
  assign d (e1 ++ e2) = assign (assign d e1) e2.
Proof. apply fold_left_app. Qed.

(** The counter of a chart and its title. *)
Lemma chart_title_of_spec (chart : Chart) (n n' : nat) (t : string) :
  chart_title_of chart n = ok (t, n') ->
  n' = n + untitled [chart] /\ titled_from n [chart] [t].
Proof.
  intros H.
  assert (Hu : untitled [chart] = if has_title chart then 0 else 1).
  { rewrite untitled_cons. unfold untitled. simpl. lia. }
  unfold chart_title_of in H. unfold has_title in Hu. unfold titled_from.
  destruct (title chart) as [T|] eqn:HT.
  - unfold rbind in H.
    destruct (paragraph0 T) as [e|par] eqn:Hpar; [discriminate|].
    inversion H; subst. split; [lia|].
    intros [|i] c Hc; [|now destruct i].
    inversion Hc; subst. rewrite HT. now exists par.
  - inversion H; subst. split; [lia|].
    intros [|i] c Hc; [|now destruct i].
    inversion Hc; subst. rewrite HT. cbn [firstn].
    unfold untitled at 1. simpl. now rewrite Nat.add_0_r.
Qed.

(** Titles of two runs of charts, the counter going on. *)
Lemma titled_from_app (n : nat) (cs1 cs2 : list Chart) (t1 t2 : list string) :
  List.length t1 = List.length cs1 ->
  titled_from n cs1 t1 ->
  titled_from (n + untitled cs1) cs2 t2 ->
  titled_from n (cs1 ++ cs2) (t1 ++ t2).
Proof.
  intros Hlen H1 H2 i chart Hi.
  destruct (Nat.lt_ge_cases i (List.length cs1)) as [Hlt|Hge].
  - rewrite nth_error_app1 in Hi by assumption.
    specialize (H1 i chart Hi).
    rewrite nth_error_app1 by lia.
    rewrite firstn_app.
    replace (i - List.length cs1) with 0 by lia.
    cbn [firstn]. now rewrite app_nil_r.
  - rewrite nth_error_app2 in Hi by assumption.
    specialize (H2 (i - List.length cs1) chart Hi).
    rewrite nth_error_app2 by lia. rewrite Hlen.
    rewrite firstn_app, untitled_app, firstn_all2 by assumption.
    now rewrite Nat.add_assoc.
Qed.

Lemma extends_nil (st : Catalog) : extends st st [].
Proof.
  exists []. split; [reflexivity|].
  split; [intros [|i] chart H; discriminate|].
  split; [unfold untitled; simpl; lia|].
  split; [now rewrite app_nil_r | reflexivity].
Qed.

Lemma extends_trans (st1 st2 st3 : Catalog) (cs1 cs2 : list Chart) :
  extends st1 st2 cs1 -> extends st2 st3 cs2 -> extends st1 st3 (cs1 ++ cs2).
Proof.
  intros (t1 & L1 & T1 & N1 & C1 & M1) (t2 & L2 & T2 & N2 & C2 & M2).
  exists (t1 ++ t2)%list. split; [|split; [|split; [|split]]].
  - rewrite !length_app. lia.
  - apply titled_from_app; [assumption..|]. now rewrite <- N1.
  - rewrite untitled_app. lia.
  - now rewrite C2, C1, app_assoc.
  - now rewrite M2, M1, combine_app, assign_app.
Qed.

Lemma charts_loop_spec (cs : list Chart) :
  forall st st', charts_loop cs st = ok st' -> extends st st' cs.
Proof.
  induction cs as [|chart cs IH]; intros st st' H.
  - inversion H; subst. apply extends_nil.
  - cbn [charts_loop] in H. unfold rbind in H.
    destruct (chart_title_of chart (untitled_index st)) as [e|[t n']] eqn:Ht;
      [discriminate|].
    apply chart_title_of_spec in Ht as [Hn Htitle].
    eapply (extends_trans st _ st' [chart] cs); [|exact (IH _ _ H)].
    exists [t]. split; [reflexivity|]. split; [exact Htitle|].
    split; [exact Hn|]. split; reflexivity.
Qed.

Lemma sheets_loop_spec (wb : Workbook) (sheet_names : list string) :
  forall st st',
  sheets_loop wb sheet_names st = ok st' ->
  extends st st'
    (flat_map (fun sheet_name =>
                 match sheet wb sheet_name with
                 | inr ws => _charts ws
                 | inl _ => []
                 end) sheet_names).
Proof.
  induction sheet_names as [|sheet_name rest IH]; intros st st' H.
  - inversion H; subst. apply extends_nil.
  - cbn [sheets_loop flat_map] in H |- *. unfold rbind in H.
    destruct (sheet wb sheet_name) as [e|ws]; [discriminate|].
    destruct (charts_loop (_charts ws) st) as [e|st1] eqn:H1; [discriminate|].
    eapply extends_trans; [apply charts_loop_spec, H1 | apply IH, H].
Qed.

End CatalogFacts.

(** The catalog of a workbook of two sheets: one counter for both. *)
Example catalog_of_two_sheets :
  dict_keys (_charts_map (Sample.parser_of_wb Sample.two_sheets))
  = ["Untitled 1"; "Sales"; "Untitled 2"].
Proof. reflexivity. Qed.

(** C6 (as amended). When the constructor succeeds, the catalog is the
    result of the assignments [_charts_map[title] = chart] over the charts
    in discovery order (sheet order, then the order on the sheet), where the
    title of a chart with an explicit title is the concatenation of the runs
    of the first paragraph of its rich text, and the title of a chart
    without is ["Untitled {n}"], [n] being 1 plus the number of untitled
    charts discovered before it on any sheet. *)
Theorem C6_catalog_titles (wb : Workbook) (self : ExcelImageParser) :
  __init__ wb = ok self ->
  charts self = discovered wb
  /\ exists titles,
       List.length titles = List.length (discovered wb)
       /\ titled_from 1 (discovered wb) titles
       /\ _charts_map self = assign [] (combine titles (discovered wb)).
Proof.
  unfold __init__, rbind. intros H.
  destruct (sheets_loop wb (sheetnames wb) _) as [e|st] eqn:Hloop; [discriminate|].
  inversion H; subst; clear H. cbn [charts _charts_map].
  apply CatalogFacts.sheets_loop_spec in Hloop
    as (titles & Hlen & Htitles & _ & Hcharts & Hmap).
  split; [exact Hcharts|]. now exists titles.
Qed.

Lemma C6_catalog_titles_witness :
  charts (Sample.parser_of_wb Sample.two_sheets) = discovered Sample.two_sheets
  /\ exists titles,
       List.length titles = List.length (discovered Sample.two_sheets)
       /\ titled_from 1 (discovered Sample.two_sheets) titles
       /\ _charts_map (Sample.parser_of_wb Sample.two_sheets)
          = assign [] (combine titles (discovered Sample.two_sheets)).
Proof.
  apply (C6_catalog_titles Sample.two_sheets (Sample.parser_of_wb Sample.two_sheets)).
  reflexivity.
Defined.

(** C6, the claim as stated fails: a title of two paragraphs, "Sales" and
    "2024", is keyed by its first paragraph, "Sales"; the concatenation of
    all its runs, "Sales2024", is no key of the catalog. *)
Lemma C6_counterexample :
  ~ keyed_by_all_runs (Sample.wb_of [Sample.two_line_chart]).
Proof.
  intros H.
  specialize (H (Sample.parser_of [Sample.two_line_chart]) eq_refl
                Sample.two_line_chart Sample.two_line_title
                (or_introl eq_refl) eq_refl).
  discriminate.
Qed.

(* ================================================================== *)
(** * Further properties of the range reference resolver *)
(* ================================================================== *)

Module ResolverMore.
Import PyStr PyStrFacts.
Local Arguments Ascii.eqb : simpl never.

(** No segment of a split has the separator. *)
Lemma segment_lacks_separator (sep : ascii) (s seg : string) :
  In seg (split sep s) -> contains sep seg = false.
Proof.
  revert seg; induction s as [|a s IH]; intros seg Hin.
  - destruct Hin as [<-|[]]. reflexivity.
  - simpl in Hin. destruct (Ascii.eqb a sep) eqn:E.
    + destruct Hin as [<-|Hin]; [reflexivity | now apply IH].
    + destruct (split sep s) as [|seg0 segs] eqn:Hs.
      * destruct Hin as [<-|[]]. simpl. now rewrite E.
      * destruct Hin as [<-|Hin].
        -- simpl. rewrite E. apply IH. now left.
        -- apply IH. now right.
Qed.

Lemma collapse_without_comma (x : string) :
  contains "," x = false -> collapse x = x.
Proof. unfold collapse. now intros ->. Qed.

Lemma union_reference_single (sh rng : string) :
  union_reference sh [rng] = sh ++ "!" ++ rng.
Proof. reflexivity. Qed.

End ResolverMore.

(** X1. A single-segment reference resolves to its parts: when the
    reference reads [sh!rng] once parentheses and quotes are stripped, the
    sheet name is [sh], the value range is [rng], and the category range is
    [rng] without its [$] markers. *)
Theorem X1_single_reference_resolves_to_its_parts (input sh rng : string) :
  part sh = true -> part rng = true ->
  strip_wrappers input = sh ++ "!" ++ rng ->
  chart_sheet_name input = sh
  /\ chart_val_range input = rng
  /\ chart_cat_range input = PyStr.replace "$" "" rng.
Proof.
  intros Hsh Hrng Hin.
  rewrite <- ResolverMore.union_reference_single in Hin.
  assert (Hname : chart_sheet_name input = sh).
  { unfold chart_sheet_name. rewrite Hin.
    apply Resolver.sheet_name_union, (Resolver.lacks_In _ _ _ Hsh).
    simpl; tauto. }
  assert (Hbody : val_range_body input = rng).
  { unfold val_range_body. rewrite Hname, Hin.
    rewrite Resolver.strip_prefix_union; [reflexivity | assumption|].
    now constructor. }
  assert (Hcomma : PyStr.contains "," rng = false).
  { apply (Resolver.lacks_In _ _ _ Hrng). simpl; tauto. }
  split; [exact Hname|]. split.
  - unfold chart_val_range. rewrite Hbody.
    now apply ResolverMore.collapse_without_comma.
  - unfold chart_cat_range, cat_range_body.
    fold (val_range_body input). rewrite Hbody.
    apply ResolverMore.collapse_without_comma.
    destruct (PyStr.contains "," (PyStr.replace "$" "" rng)) eqn:E; [|reflexivity].
    apply PyStrFacts.contains_replace in E. congruence.
Qed.

Lemma X1_single_reference_resolves_to_its_parts_witness :
  chart_sheet_name "'Sheet 1'!$A$2:$A$10" = "Sheet 1"
  /\ chart_val_range "'Sheet 1'!$A$2:$A$10" = "$A$2:$A$10"
  /\ chart_cat_range "'Sheet 1'!$A$2:$A$10" = PyStr.replace "$" "" "$A$2:$A$10".
Proof.
  apply (X1_single_reference_resolves_to_its_parts
           "'Sheet 1'!$A$2:$A$10" "Sheet 1" "$A$2:$A$10"); reflexivity.
Defined.

(** X2. Whatever the reference, the sheet name that indexes the workbook
    has no [!], parenthesis or quote, the category range has no [$],
    parenthesis or quote, and the value range has no parenthesis or quote. *)
Theorem X2_resolved_strings_have_no_wrappers (input : string) :
  lacks ["!"; "("; ")"; "'"]%char (chart_sheet_name input) = true
  /\ lacks ["$"; "("; ")"; "'"]%char (chart_cat_range input) = true
  /\ lacks ["("; ")"; "'"]%char (chart_val_range input) = true.
Proof.
  split; [|split; [apply Resolver.chart_cat_range_clean
                  | apply Resolver.chart_val_range_clean]].
  apply Resolver.lacks_intro. intros c Hin.
  assert (Hseg : In (chart_sheet_name input)
                    (PyStr.split "!" (strip_wrappers input)))
    by apply PyStrFacts.first_in, PyStrFacts.split_not_nil.
  destruct Hin as [<-|Hin].
  - now apply ResolverMore.segment_lacks_separator in Hseg.
  - destruct (PyStr.contains c (chart_sheet_name input)) eqn:E; [|reflexivity].
    apply (PyStrFacts.contains_segment c _ _ _ Hseg) in E.
    now rewrite (Resolver.lacks_In _ _ _ (Resolver.strip_wrappers_clean input) Hin)
      in E.
Qed.

(* ================================================================== *)
(** * Further properties of the series extraction *)
(* ================================================================== *)

Module Extractor.

Lemma sheet_missing (wb : Workbook) (name : string) :
  sheet_in wb name = false ->
  sheet wb name = raise (KeyError ("Worksheet " ++ name ++ " does not exist.")).
Proof.
  unfold sheet_in, sheetnames.
  induction wb as [|[n ws] wb IH]; simpl; [reflexivity|].
  rewrite String.eqb_sym.
  destruct (String.eqb n name); [discriminate | exact IH].
Qed.

Lemma sheet_present (wb : Workbook) (name : string) :
  sheet_in wb name = true -> exists ws, sheet wb name = ok ws.
Proof.
  unfold sheet_in, sheetnames.
  induction wb as [|[n ws] wb IH]; simpl; [discriminate|].
  rewrite String.eqb_sym.
  destruct (String.eqb n name); [now exists ws | exact IH].
Qed.

Lemma sheet_ok_present (wb : Workbook) (name : string) (ws : Worksheet) :
  sheet wb name = ok ws -> sheet_in wb name = true.
Proof.
  destruct (sheet_in wb name) eqn:E; [reflexivity|].
  rewrite (sheet_missing _ _ E). discriminate.
Qed.

(** The only exception of [read_category]. *)
Lemma read_category_error (src : option AxDataSource) (carry : Carry) (e : exn) :
  read_category src carry = raise e -> e = AttributeError "formatCode".
Proof.
  unfold read_category.
  destruct src as [x|]; [|discriminate].
  destruct (strRef x); [discriminate|].
  destruct (numRef x) as [nr|]; [|discriminate].
  destruct (numCache nr); simpl; [discriminate|].
  intros H; now inversion H.
Qed.

Lemma drop_general_some (fmt : option string) (code : string) :
  drop_general fmt = Some code <-> fmt = Some code /\ code <> "General".
Proof.
  unfold drop_general. destruct fmt as [c|].
  - destruct (String.eqb c "General") eqn:E.
    + apply String.eqb_eq in E. split; [discriminate|].
      intros [H Hne]. inversion H; subst. contradiction.
    + apply String.eqb_neq in E. split.
      * intros H; inversion H; subst. auto.
      * now intros [H _].
  - split; [discriminate | now intros [H _]].
Qed.

(** What [series_record] returns, by its steps. *)
Lemma series_record_ok (ct : string) (wb : Workbook) (s : Series)
      (carry carry' : Carry) (ser : SeriesRecord) :
  series_record ct wb s carry = ok (carry', ser) ->
  exists carry1 vr vf cat_data val_data,
    read_category (if String.eqb ct "scatterChart" then xVal s else cat s) carry
    = ok carry1
    /\ read_value (if String.eqb ct "scatterChart" then yVal s else val s)
       = ok (vr, vf)
    /\ dereference wb (chart_sheet_name (input_cat_range carry1))
                      (chart_cat_range (input_cat_range carry1)) = ok cat_data
    /\ dereference wb (chart_sheet_name vr) (chart_val_range vr) = ok val_data
    /\ carry' = {| input_cat_range := input_cat_range carry1;
                   input_cat_format := drop_general (input_cat_format carry1) |}
    /\ category_axis_data ser = cat_data
    /\ value_axis_data ser = val_data
    /\ category_value_format ser = drop_general (input_cat_format carry1)
    /\ values_value_format ser = drop_general vf
    /\ series_name ser
       = match ser_tx s with
         | Some label =>
             match label_v label with
             | Some n => if String.eqb n "" then None else Some n
             | None => None
             end
         | None => None
         end.
Proof.
  unfold series_record, rbind, ok. intros H.
  destruct (read_category _ carry) as [e|carry1] eqn:H1; [discriminate|].
  destruct (read_value _) as [e|[vr vf]] eqn:H2; [discriminate|].
  destruct (dereference wb (chart_sheet_name (input_cat_range carry1)) _)
    as [e|cat_data] eqn:H3; [discriminate|].
  destruct (dereference wb (chart_sheet_name vr) _) as [e|val_data] eqn:H4;
    [discriminate|].
  inversion H; subst; clear H.
  exists carry1, vr, vf, cat_data, val_data. cbn.
  repeat split; try reflexivity; try assumption.
  destruct (ser_tx s) as [label|]; [|reflexivity].
  now destruct (label_v label).
Qed.

End Extractor.

(** X3. A chart of an allowed type whose first series has no category
    source: the carried reference is still the empty string, the sheet name
    made of it is the empty string, and the extraction raises the
    [KeyError] of the workbook lookup, when the value source of the series
    is complete and the workbook has no sheet with the empty name. *)
Theorem X3_first_series_without_category_raises_KeyError
        (self : ExcelImageParser) (wb : Workbook) (t : string) (chart : Chart)
        (s : Series) (rest : list Series) (titles : option string * option string)
        (vr : string) (vf : option string) (log : list event) :
  dict_get t (_charts_map self) = ok chart ->
  allowed (tagname chart) = true ->
  axis_titles chart = ok titles ->
  series chart = s :: rest ->
  (if String.eqb (tagname chart) "scatterChart" then xVal s else cat s) = None ->
  read_value (if String.eqb (tagname chart) "scatterChart" then yVal s else val s)
  = ok (vr, vf) ->
  sheet_in wb "" = false ->
  _parse_chart_data self t wb log
  = (raise (KeyError "Worksheet  does not exist."), log).
Proof.
  intros Hget Hallowed Haxis Hseries Hcat Hval Hsheet.
  rewrite Normalizer.parse_cases, Hget. unfold ok. rewrite Hallowed.
  unfold chart_description, rbind. rewrite Haxis. unfold ok.
  destruct titles as [xt yt]. rewrite Hseries, Normalizer.series_loop_cons.
  unfold series_record, rbind. rewrite Hcat, Hval. cbn [read_category].
  unfold ok, initial_carry. cbn [input_cat_range].
  unfold dereference, rbind.
  change (chart_sheet_name "") with "".
  rewrite (Extractor.sheet_missing _ _ Hsheet). reflexivity.
Qed.

Lemma X3_first_series_without_category_raises_KeyError_witness :
  _parse_chart_data (Sample.parser_of [Fixture.no_category_chart]) "Bare"
                    (Sample.wb_of [Fixture.no_category_chart]) []
  = (raise (KeyError "Worksheet  does not exist."), []).
Proof.
  apply (X3_first_series_without_category_raises_KeyError
           (Sample.parser_of [Fixture.no_category_chart])
           (Sample.wb_of [Fixture.no_category_chart])
           "Bare" Fixture.no_category_chart
           (Sample.category_series None "Sheet1!$B$1:$B$5") []
           (None, None) "Sheet1!$B$1:$B$5" (Some "General") []);
    reflexivity.
Defined.

(** X4. The formats of a series record are normalized: a format is in the
    record exactly when it is the cached format code of the value source
    and is not ["General"]; the category format of the record is never
    ["General"] and is what is carried to the next series; the name of the
    record is never the empty string. *)
Theorem X4_record_formats_are_normalized
        (ct : string) (wb : Workbook) (s : Series) (carry carry' : Carry)
        (ser : SeriesRecord) :
  series_record ct wb s carry = ok (carry', ser) ->
  (forall code,
      values_value_format ser = Some code <->
      code <> "General"
      /\ exists vr,
           read_value (if String.eqb ct "scatterChart" then yVal s else val s)
           = ok (vr, Some code))
  /\ category_value_format ser <> Some "General"
  /\ input_cat_format carry' = category_value_format ser
  /\ series_name ser <> Some "".
Proof.
  intros H.
  apply Extractor.series_record_ok in H
    as (carry1 & vr & vf & cat_data & val_data
        & Hcat & Hval & _ & _ & -> & _ & _ & Hcf & Hvf & Hname).
  split; [|split; [|split]].
  - intros code. rewrite Hvf, Extractor.drop_general_some. split.
    + intros [-> Hne]. split; [exact Hne | now exists vr].
    + intros [Hne [vr' Hval']]. rewrite Hval in Hval'.
      inversion Hval'; subst. auto.
  - rewrite Hcf. intros Hc. apply Extractor.drop_general_some in Hc as [_ Hne].
    now apply Hne.
  - now rewrite Hcf.
  - rewrite Hname. destruct (ser_tx s) as [label|]; [|discriminate].
    destruct (label_v label) as [n|]; [|discriminate].
    destruct (String.eqb n "") eqn:E; [discriminate|].
    apply String.eqb_neq in E. congruence.
Qed.

Lemma X4_record_formats_are_normalized_witness :
  (forall code,
      values_value_format Fixture.S1_record = Some code <->
      code <> "General"
      /\ exists vr, read_value (val Sample.S1) = ok (vr, Some code))
  /\ category_value_format Fixture.S1_record <> Some "General"
  /\ input_cat_format Fixture.S1_carry = category_value_format Fixture.S1_record
  /\ series_name Fixture.S1_record <> Some "".
Proof.
  apply (X4_record_formats_are_normalized
           "lineChart" (Sample.wb_of []) Sample.S1 initial_carry
           Fixture.S1_carry Fixture.S1_record).
  reflexivity.
Defined.

(** X5. A series without value source ([yVal] of a scatter chart, [val]
    otherwise) makes the extraction of the series raise [AttributeError],
    whatever its category source and the workbook are. *)
Theorem X5_series_without_value_source_raises
        (ct : string) (wb : Workbook) (s : Series) (carry : Carry) :
  (if String.eqb ct "scatterChart" then yVal s else val s) = None ->
  exists attribute,
    series_record ct wb s carry = raise (AttributeError attribute).
Proof.
  intros Hval. unfold series_record, rbind. rewrite Hval.
  destruct (read_category _ carry) as [e|carry1] eqn:Hcat.
  - apply Extractor.read_category_error in Hcat. subst.
    now exists "formatCode".
  - now exists "numRef".
Qed.

Lemma X5_series_without_value_source_raises_witness :
  exists attribute,
    series_record "lineChart" (Sample.wb_of []) Fixture.no_value_series
                  initial_carry
    = raise (AttributeError attribute).
Proof.
  apply (X5_series_without_value_source_raises
           "lineChart" (Sample.wb_of []) Fixture.no_value_series initial_carry).
  reflexivity.
Defined.

(* ================================================================== *)
(** * Further properties of the normalization and of the figures *)
(* ================================================================== *)

Module Figures.

(** The fields of a chart description. *)
Lemma chart_description_fields (t : string) (chart : Chart) (wb : Workbook)
      (cd : ChartData) :
  chart_description t chart wb = ok cd ->
  chart_title cd = t
  /\ chart_type cd = tagname chart
  /\ axis_titles chart = ok (x_axis_title cd, y_axis_title cd).
Proof.
  unfold chart_description, rbind.
  destruct (axis_titles chart) as [e|[xt yt]]; [discriminate|].
  destruct (series_loop _ _ _ _ _) as [e|result]; [discriminate|].
  intros H; inversion H; subst. cbn. auto.
Qed.

(** The allowed types are the three types with axes and the pie. *)
Lemma allowed_cases (ct : string) :
  allowed ct = true -> xy_chart ct = true \/ ct = "pieChart".
Proof.
  unfold allowed, xy_chart, ALLOWED_FIGURE_TYPES. cbn [existsb].
  destruct (String.eqb ct "lineChart"); [now left|].
  destruct (String.eqb ct "scatterChart") eqn:E2.
  { intros _. left. cbn. now rewrite orb_true_r. }
  destruct (String.eqb ct "barChart"); [now left|].
  destruct (String.eqb ct "pieChart") eqn:E4; [|discriminate].
  right. now apply String.eqb_eq.
Qed.

Lemma xy_chart_cases (ct : string) :
  xy_chart ct = true ->
  ct = "lineChart" \/ ct = "barChart" \/ ct = "scatterChart".
Proof.
  unfold xy_chart. cbn [existsb].
  destruct (String.eqb ct "lineChart") eqn:E1.
  { left. now apply String.eqb_eq. }
  destruct (String.eqb ct "barChart") eqn:E2.
  { right; left. now apply String.eqb_eq. }
  destruct (String.eqb ct "scatterChart") eqn:E3; [|discriminate].
  right; right. now apply String.eqb_eq.
Qed.

(** The figure of a chart with two axes and a list of records. *)
Lemma figure_of_xy_chart (cd : ChartData) (l : list SeriesRecord) :
  xy_chart (chart_type cd) = true ->
  cd_series cd = SeriesList l ->
  _create_plotly_figure cd =
  match l with
  | [] => raise IndexError
  | ser :: _ =>
      ok {| data :=
              map (fun ser =>
                     if String.eqb (chart_type cd) "lineChart"
                     then Scatter (category_axis_data ser) (value_axis_data ser)
                                  (Some "lines") (series_name ser)
                     else if String.eqb (chart_type cd) "barChart"
                     then Bar (category_axis_data ser) (value_axis_data ser)
                     else Scatter (category_axis_data ser) (value_axis_data ser)
                                  None None) l;
            layout := {| title_text := Some (chart_title cd);
                         xaxis_title := x_axis_title cd;
                         yaxis_title := y_axis_title cd;
                         yaxis_tickformat := values_value_format ser;
                         xaxis_tickformat := category_value_format ser |} |}
  end.
Proof.
  intros Hxy Hl. unfold _create_plotly_figure, update_layout_xy.
  rewrite Hl.
  destruct (xy_chart_cases _ Hxy) as [E|[E|E]]; rewrite E;
    destruct l as [|ser rest]; reflexivity.
Qed.

(** The figure of a pie chart with a list of records. *)
Lemma figure_of_pie_chart (cd : ChartData) (l : list SeriesRecord) :
  chart_type cd = "pieChart" ->
  cd_series cd = SeriesList l ->
  _create_plotly_figure cd =
  ok {| data := map (fun ser => Pie (category_axis_data ser) (value_axis_data ser)) l;
        layout := {| title_text := Some (chart_title cd);
                     xaxis_title := None; yaxis_title := None;
                     yaxis_tickformat := None; xaxis_tickformat := None |} |}.
Proof.
  intros Hpie Hl. unfold _create_plotly_figure. rewrite Hpie, Hl. reflexivity.
Qed.

(** What the two methods build of a chart record of [_parse_chart_data]:
    the record has no series, so the figure has no trace, and the chart is a
    pie chart. *)
Lemma figure_of_parsed_chart (t : string) (chart : Chart) (wb : Workbook)
      (cd : ChartData) (fig : Figure) :
  allowed (tagname chart) = true ->
  chart_description t chart wb = ok cd ->
  _create_plotly_figure cd = ok fig ->
  tagname chart = "pieChart" /\ series chart = []
  /\ chart_title cd = t
  /\ fig = {| data := [];
              layout := {| title_text := Some t;
                           xaxis_title := None; yaxis_title := None;
                           yaxis_tickformat := None; xaxis_tickformat := None |} |}.
Proof.
  intros Hallowed Hcd Hfig.
  destruct (chart_description_fields _ _ _ _ Hcd) as (Ht & Hty & _).
  destruct (Normalizer.chart_description_ok _ _ _ _ Hcd) as [Hnil Hs].
  rewrite <- Hty in Hallowed.
  destruct (allowed_cases _ Hallowed) as [Hxy|Hpie].
  - rewrite (figure_of_xy_chart cd [] Hxy Hs) in Hfig. discriminate.
  - rewrite (figure_of_pie_chart cd [] Hpie Hs) in Hfig.
    inversion Hfig; subst. rewrite <- Hty. auto.
Qed.

End Figures.

(** X6. [_parse_chart_data] returns a chart record only for a catalogued
    chart of an allowed type that has no series; the record has the title
    asked for, the type tag of the chart, its axis titles and the empty list
    of series, and no warning is emitted. *)
Theorem X6_chart_record_only_for_a_chart_without_series
        (self : ExcelImageParser) (t : string) (wb : Workbook)
        (log log' : list event) (cd : ChartData) :
  _parse_chart_data self t wb log = (ok (Some cd), log') ->
  log' = log
  /\ exists chart,
       dict_get t (_charts_map self) = ok chart
       /\ allowed (tagname chart) = true
       /\ series chart = []
       /\ cd_series cd = SeriesList []
       /\ chart_title cd = t
       /\ chart_type cd = tagname chart
       /\ axis_titles chart = ok (x_axis_title cd, y_axis_title cd).
Proof.
  rewrite Normalizer.parse_cases.
  destruct (dict_get t (_charts_map self)) as [e|chart]; [discriminate|].
  destruct (allowed (tagname chart)) eqn:Hallowed; [|discriminate].
  destruct (chart_description t chart wb) as [e|cd'] eqn:Hcd; [discriminate|].
  intros H; inversion H; subst. split; [reflexivity|].
  exists chart.
  destruct (Normalizer.chart_description_ok _ _ _ _ Hcd) as [Hnil Hs].
  destruct (Figures.chart_description_fields _ _ _ _ Hcd) as (Ht & Hty & Hax).
  repeat split; assumption.
Qed.

Lemma X6_chart_record_only_for_a_chart_without_series_witness :
  [] = ([] : list event)
  /\ exists chart,
       dict_get "Untitled 1" (_charts_map (Sample.parser_of [Sample.empty_pie]))
       = ok chart
       /\ allowed (tagname chart) = true
       /\ series chart = []
       /\ cd_series Fixture.empty_pie_data = SeriesList []
       /\ chart_title Fixture.empty_pie_data = "Untitled 1"
       /\ chart_type Fixture.empty_pie_data = tagname chart
       /\ axis_titles chart
          = ok (x_axis_title Fixture.empty_pie_data,
                y_axis_title Fixture.empty_pie_data).
Proof.
  apply (X6_chart_record_only_for_a_chart_without_series
           (Sample.parser_of [Sample.empty_pie]) "Untitled 1"
           (Sample.wb_of [Sample.empty_pie]) [] [] Fixture.empty_pie_data).
  reflexivity.
Defined.

(** X7. The figure of a line, bar or scatter chart with at least one
    series record has one trace for each record, in order, with the
    category and value data of the record; its layout has the title and the
    axis titles of the chart, and the tick formats of the first record
    only. *)
Theorem X7_figure_of_a_chart_with_axes
        (cd : ChartData) (ser : SeriesRecord) (rest : list SeriesRecord) :
  xy_chart (chart_type cd) = true ->
  cd_series cd = SeriesList (ser :: rest) ->
  exists fig,
    _create_plotly_figure cd = ok fig
    /\ map trace_data (data fig)
       = map (fun ser => (category_axis_data ser, value_axis_data ser)) (ser :: rest)
    /\ layout fig = {| title_text := Some (chart_title cd);
                       xaxis_title := x_axis_title cd;
                       yaxis_title := y_axis_title cd;
                       yaxis_tickformat := values_value_format ser;
                       xaxis_tickformat := category_value_format ser |}.
Proof.
  intros Hxy Hl. rewrite (Figures.figure_of_xy_chart cd _ Hxy Hl).
  eexists. split; [reflexivity|]. split; [|reflexivity].
  cbn [data]. rewrite map_map. apply map_ext. intros a.
  destruct (String.eqb (chart_type cd) "lineChart"); [reflexivity|].
  destruct (String.eqb (chart_type cd) "barChart"); reflexivity.
Qed.

Lemma X7_figure_of_a_chart_with_axes_witness :
  exists fig,
    _create_plotly_figure
      (Fixture.chart_data_of "barChart" [Fixture.percent_record; Fixture.S1_record])
    = ok fig
    /\ map trace_data (data fig)
       = map (fun ser => (category_axis_data ser, value_axis_data ser))
             [Fixture.percent_record; Fixture.S1_record]
    /\ layout fig = {| title_text := Some "Week";
                       xaxis_title := Some "Day";
                       yaxis_title := Some "Amount";
                       yaxis_tickformat := Some "0.00%";
                       xaxis_tickformat := Some "d-mmm" |}.
Proof.
  apply (X7_figure_of_a_chart_with_axes
           (Fixture.chart_data_of "barChart"
              [Fixture.percent_record; Fixture.S1_record])
           Fixture.percent_record [Fixture.S1_record]); reflexivity.
Defined.

(** X8. The figure of a line, bar or scatter chart with an empty list of
    series cannot be made: the tick formats are read from the first record,
    and the method raises [IndexError]. *)
Theorem X8_figure_of_a_chart_with_axes_needs_a_series (cd : ChartData) :
  xy_chart (chart_type cd) = true ->
  cd_series cd = SeriesList [] ->
  _create_plotly_figure cd = raise IndexError.
Proof.
  intros Hxy Hl. now rewrite (Figures.figure_of_xy_chart cd _ Hxy Hl).
Qed.

Lemma X8_figure_of_a_chart_with_axes_needs_a_series_witness :
  _create_plotly_figure (Fixture.chart_data_of "lineChart" []) = raise IndexError.
Proof.
  apply (X8_figure_of_a_chart_with_axes_needs_a_series
           (Fixture.chart_data_of "lineChart" [])); reflexivity.
Defined.

(** X9. The figure of a pie chart is made for any list of series records:
    one [Pie] trace for each record, in order, the title of the chart, and
    no axis title or tick format, whatever the chart data has of them. *)
Theorem X9_figure_of_a_pie_chart (cd : ChartData) (l : list SeriesRecord) :
  chart_type cd = "pieChart" ->
  cd_series cd = SeriesList l ->
  _create_plotly_figure cd
  = ok {| data := map (fun ser => Pie (category_axis_data ser) (value_axis_data ser)) l;
          layout := {| title_text := Some (chart_title cd);
                       xaxis_title := None; yaxis_title := None;
                       yaxis_tickformat := None; xaxis_tickformat := None |} |}.
Proof. apply Figures.figure_of_pie_chart. Qed.

Lemma X9_figure_of_a_pie_chart_witness :
  _create_plotly_figure (Fixture.chart_data_of "pieChart" [Fixture.percent_record])
  = ok {| data := [Pie Sample.labels Sample.costs];
          layout := {| title_text := Some "Week";
                       xaxis_title := None; yaxis_title := None;
                       yaxis_tickformat := None; xaxis_tickformat := None |} |}.
Proof.
  apply (X9_figure_of_a_pie_chart
           (Fixture.chart_data_of "pieChart" [Fixture.percent_record])
           [Fixture.percent_record]); reflexivity.
Defined.

(** X10. For chart data of a type outside [ALLOWED_FIGURE_TYPES] the
    method raises nothing and returns the empty figure: no trace, no
    title. *)
Theorem X10_figure_of_another_type_is_empty (cd : ChartData) :
  allowed (chart_type cd) = false ->
  _create_plotly_figure cd = ok empty_figure.
Proof.
  unfold allowed, ALLOWED_FIGURE_TYPES. cbn [existsb]. intros H.
  apply orb_false_iff in H as [H1 H].
  apply orb_false_iff in H as [H2 H].
  apply orb_false_iff in H as [H3 H].
  apply orb_false_iff in H as [H4 _].
  unfold _create_plotly_figure, rbind. now rewrite H1, H2, H3, H4.
Qed.

Lemma X10_figure_of_another_type_is_empty_witness :
  _create_plotly_figure (Fixture.chart_data_of "radarChart" [Fixture.S1_record])
  = ok empty_figure.
Proof.
  apply (X10_figure_of_another_type_is_empty
           (Fixture.chart_data_of "radarChart" [Fixture.S1_record])).
  reflexivity.
Defined.

(** X11. [get_plotly_figure_by_title] returns a figure only for a
    catalogued pie chart without series: the figure has the title and no
    trace, and the workbook has been closed.  For every other title it
    raises. *)
Theorem X11_figure_by_title_only_for_an_empty_pie
        (evaluate : ExcelImageParser -> result Workbook)
        (self : ExcelImageParser) (t : string) (log log' : list event)
        (fig : Figure) :
  get_plotly_figure_by_title evaluate self t log = (ok fig, log') ->
  exists chart,
    dict_get t (_charts_map self) = ok chart
    /\ tagname chart = "pieChart"
    /\ series chart = []
    /\ fig = {| data := [];
                layout := {| title_text := Some t;
                             xaxis_title := None; yaxis_title := None;
                             yaxis_tickformat := None; xaxis_tickformat := None |} |}
    /\ log' = (log ++ [Close])%list.
Proof.
  unfold get_plotly_figure_by_title, bind, lift.
  destruct (evaluate self) as [e|wb]; [discriminate|].
  rewrite Normalizer.parse_cases.
  destruct (dict_get t (_charts_map self)) as [e|chart]; [discriminate|].
  destruct (allowed (tagname chart)) eqn:Hallowed; [|discriminate].
  destruct (chart_description t chart wb) as [e|cd] eqn:Hcd; [discriminate|].
  unfold emit.
  destruct (_create_plotly_figure cd) as [e|fig'] eqn:Hfig; [discriminate|].
  intros H; inversion H; subst.
  destruct (Figures.figure_of_parsed_chart _ _ _ _ _ Hallowed Hcd Hfig)
    as (Hpie & Hnil & _ & Hf).
  exists chart. repeat split; assumption.
Qed.

Lemma X11_figure_by_title_only_for_an_empty_pie_witness :
  exists chart,
    dict_get "Untitled 1" (_charts_map (Sample.parser_of [Sample.empty_pie]))
    = ok chart
    /\ tagname chart = "pieChart"
    /\ series chart = []
    /\ Fixture.titled_figure "Untitled 1"
       = {| data := [];
            layout := {| title_text := Some "Untitled 1";
                         xaxis_title := None; yaxis_title := None;
                         yaxis_tickformat := None; xaxis_tickformat := None |} |}
    /\ [Close] = ([] ++ [Close])%list.
Proof.
  apply (X11_figure_by_title_only_for_an_empty_pie
           Sample.evaluate (Sample.parser_of [Sample.empty_pie]) "Untitled 1"
           [] [Close] (Fixture.titled_figure "Untitled 1")).
  reflexivity.
Defined.

(* ================================================================== *)
(** * Further properties of the extraction round *)
(* ================================================================== *)

Module RoundMore.

(** A completed loop over the titles: the figures are those of the titles of
    supported charts, in order, each without series and without trace; the
    warnings are those of the other titles, in order. *)
Lemma figures_loop_ok (self : ExcelImageParser) (wb : Workbook)
      (titles : list string) :
  forall (figures figs : list (ChartData * Figure)) (log log' : list event),
  figures_loop self wb titles figures log = (ok figs, log') ->
  exists new,
    figs = (figures ++ new)%list
    /\ map (fun cf => chart_title (fst cf)) new = filter (supported self) titles
    /\ Forall (fun cf => cd_series (fst cf) = SeriesList [] /\ data (snd cf) = [])
              new
    /\ log' = (log ++ map (fun t => Warning (unsupported_warning t))
                          (filter (fun t => negb (supported self t)) titles))%list.
Proof.
  induction titles as [|t titles IH]; intros figures figs log log' H.
  - inversion H; subst. exists []. cbn. rewrite !app_nil_r. auto.
  - cbn [figures_loop] in H. unfold bind at 1 in H.
    rewrite Normalizer.parse_cases in H.
    destruct (dict_get t (_charts_map self)) as [e|chart] eqn:Hget;
      [discriminate|].
    destruct (allowed (tagname chart)) eqn:Hallowed.
    + assert (Hsup : supported self t = true)
        by (unfold supported; now rewrite Hget).
      destruct (chart_description t chart wb) as [e|cd] eqn:Hcd; [discriminate|].
      unfold bind, lift in H.
      destruct (_create_plotly_figure cd) as [e|fig] eqn:Hfig; [discriminate|].
      apply IH in H as (new & -> & Htitles & Hall & ->).
      destruct (Figures.figure_of_parsed_chart _ _ _ _ _ Hallowed Hcd Hfig)
        as (_ & _ & Ht & Hf).
      destruct (Normalizer.chart_description_ok _ _ _ _ Hcd) as [_ Hs].
      exists ((cd, fig) :: new). cbn [filter]. rewrite Hsup. cbn [negb map fst].
      rewrite <- app_assoc, Ht, Htitles.
      split; [reflexivity|]. split; [reflexivity|]. split; [|reflexivity].
      constructor; [|exact Hall]. cbn. split; [exact Hs | now rewrite Hf].
    + assert (Hsup : supported self t = false)
        by (unfold supported; now rewrite Hget).
      apply IH in H as (new & -> & Htitles & Hall & ->).
      exists new. cbn [filter]. rewrite Hsup. cbn [negb map].
      rewrite <- app_assoc. auto.
Qed.

End RoundMore.

(** X12. A round of [get_figures_from_excel_file] that completes returns
    one figure for each catalogued chart of an allowed type, in catalog
    order, and each of them has no series and no trace; it has emitted one
    warning for each catalogued chart of another type, in catalog order,
    and then closed the workbook. *)
Theorem X12_completed_round
        (evaluate : ExcelImageParser -> result Workbook)
        (self : ExcelImageParser)
        (figures : list (ChartData * Figure)) (log log' : list event) :
  get_figures_from_excel_file evaluate self log = (ok figures, log') ->
  map (fun cf => chart_title (fst cf)) figures
  = filter (supported self) (dict_keys (_charts_map self))
  /\ Forall (fun cf => cd_series (fst cf) = SeriesList [] /\ data (snd cf) = [])
            figures
  /\ log' = (log ++ map (fun t => Warning (unsupported_warning t))
                        (filter (fun t => negb (supported self t))
                                (dict_keys (_charts_map self)))
                 ++ [Close])%list.
Proof.
  unfold get_figures_from_excel_file, bind at 1, lift.
  destruct (evaluate self) as [e|wb]; [discriminate|].
  unfold bind.
  destruct (figures_loop self wb (dict_keys (_charts_map self)) [] log)
    as [[e|figs] log1] eqn:Hloop; [discriminate|].
  unfold emit, ret. intros H; inversion H; subst.
  apply RoundMore.figures_loop_ok in Hloop as (new & -> & Ht & Hall & ->).
  cbn [app]. rewrite <- app_assoc. auto.
Qed.

Lemma X12_completed_round_witness :
  map (fun cf => chart_title (fst cf))
      [(Fixture.empty_pie_data, Fixture.titled_figure "Untitled 1")]
  = filter (supported (Sample.parser_of [Sample.empty_pie; Sample.radar_chart]))
           (dict_keys (_charts_map
                         (Sample.parser_of [Sample.empty_pie; Sample.radar_chart])))
  /\ Forall (fun cf => cd_series (fst cf) = SeriesList [] /\ data (snd cf) = [])
            [(Fixture.empty_pie_data, Fixture.titled_figure "Untitled 1")]
  /\ [Warning (unsupported_warning "Radar"); Close]
     = ([] ++ map (fun t => Warning (unsupported_warning t))
                  (filter (fun t =>
                             negb (supported
                                     (Sample.parser_of
                                        [Sample.empty_pie; Sample.radar_chart]) t))
                          (dict_keys (_charts_map
                                        (Sample.parser_of
                                           [Sample.empty_pie; Sample.radar_chart]))))
           ++ [Close])%list.
Proof.
  apply (X12_completed_round
           Sample.evaluate (Sample.parser_of [Sample.empty_pie; Sample.radar_chart])
           [(Fixture.empty_pie_data, Fixture.titled_figure "Untitled 1")]
           [] [Warning (unsupported_warning "Radar"); Close]).
  reflexivity.
Defined.

(* ================================================================== *)
(** * Further properties of the catalog *)
(* ================================================================== *)

Module DictFacts.

Section WithValues.
Variable V : Type.
Implicit Types (d : dict V) (k : string) (x : V).

Lemma dict_mem_In k d : dict_mem k d = true <-> In k (dict_keys d).
Proof.
  unfold dict_mem, dict_keys. rewrite existsb_exists, in_map_iff. split.
  - intros (kv & Hin & E). apply String.eqb_eq in E. now exists kv.
  - intros (kv & E & Hin). exists kv. now rewrite E, String.eqb_refl.
Qed.

(** Lookup after assignment. *)
Lemma dict_get_set_same k x d : dict_get k (dict_set k x d) = ok x.
Proof.
  induction d as [|[k' y] d IH]; simpl.
  - now rewrite String.eqb_refl.
  - destruct (String.eqb k' k) eqn:E; simpl.
    + now rewrite String.eqb_refl.
    + now rewrite E.
Qed.

Lemma dict_get_set_other k k' x d :
  k' <> k -> dict_get k' (dict_set k x d) = dict_get k' d.
Proof.
  intros Hne. induction d as [|[k0 y] d IH]; simpl.
  - apply String.eqb_neq in Hne. rewrite String.eqb_sym in Hne. now rewrite Hne.
  - destruct (String.eqb k0 k) eqn:E; simpl.
    + apply String.eqb_eq in E. subst k0.
      assert (E' : String.eqb k k' = false)
        by (apply String.eqb_neq; congruence).
      now rewrite E'.
    + destruct (String.eqb k0 k'); [reflexivity | exact IH].
Qed.

(** An assignment changes the keys only by adding a new key at the end. *)
Lemma dict_keys_set k x d :
  dict_keys (dict_set k x d)
  = if dict_mem k d then dict_keys d else (dict_keys d ++ [k])%list.
Proof.
  unfold dict_mem, dict_keys.
  induction d as [|[k' y] d IH]; simpl; [reflexivity|].
  destruct (String.eqb k' k) eqn:E; simpl.
  - apply String.eqb_eq in E. now subst.
  - rewrite IH. now destruct (existsb _ d).
Qed.

Lemma dict_set_NoDup k x d :
  NoDup (dict_keys d) -> NoDup (dict_keys (dict_set k x d)).
Proof.
  intros H. rewrite dict_keys_set.
  destruct (dict_mem k d) eqn:E; [exact H|].
  apply NoDup_app; [exact H | repeat constructor; intros [] |].
  intros a Ha [<-|[]].
  apply dict_mem_In in Ha. congruence.
Qed.

Lemma dict_set_length k x d :
  List.length (dict_set k x d) <= S (List.length d).
Proof.
  induction d as [|[k' y] d IH]; simpl; [lia|].
  destruct (String.eqb k' k); simpl; lia.
Qed.

End WithValues.

Arguments dict_mem_In {V} k d.
Arguments dict_get_set_same {V} k x d.
Arguments dict_get_set_other {V} k k' x d.
Arguments dict_keys_set {V} k x d.
Arguments dict_set_NoDup {V} k x d.
Arguments dict_set_length {V} k x d.

(** The assignments of a list of entries. *)
Lemma assign_cons (d : dict Chart) (e : string * Chart)
      (entries : list (string * Chart)) :
  assign d (e :: entries) = assign (dict_set (fst e) (snd e) d) entries.
Proof. reflexivity. Qed.

Lemma assign_NoDup (entries : list (string * Chart)) :
  forall d, NoDup (dict_keys d) -> NoDup (dict_keys (assign d entries)).
Proof.
  induction entries as [|e entries IH]; intros d H; [exact H|].
  rewrite assign_cons. apply IH. now apply dict_set_NoDup.
Qed.

Lemma assign_length (entries : list (string * Chart)) :
  forall d, List.length (assign d entries) <= List.length d + List.length entries.
Proof.
  induction entries as [|e entries IH]; intros d; [simpl; lia|].
  rewrite assign_cons. specialize (IH (dict_set (fst e) (snd e) d)).
  pose proof (dict_set_length (fst e) (snd e) d). simpl. lia.
Qed.

(** A chart of the catalog was assigned or was there before. *)
Lemma assign_get (entries : list (string * Chart)) :
  forall d t chart,
  dict_get t (assign d entries) = ok chart ->
  In chart (map snd entries) \/ dict_get t d = ok chart.
Proof.
  induction entries as [|[k c] entries IH]; intros d t chart H; [now right|].
  rewrite assign_cons in H. apply IH in H as [H|H].
  - left. now right.
  - cbn [fst snd] in H. destruct (String.eqb t k) eqn:E.
    + apply String.eqb_eq in E. subst.
      rewrite dict_get_set_same in H. inversion H. left. now left.
    + apply String.eqb_neq in E.
      rewrite dict_get_set_other in H by assumption. now right.
Qed.

(** Assignments to other keys leave a key as it is. *)
Lemma assign_get_other (entries : list (string * Chart)) (t : string) :
  Forall (fun e => fst e <> t) entries ->
  forall d, dict_get t (assign d entries) = dict_get t d.
Proof.
  induction 1 as [|e entries He _ IH]; intros d; [reflexivity|].
  rewrite assign_cons, IH. apply dict_get_set_other. congruence.
Qed.

(** The last assignment to a key wins. *)
Lemma assign_get_last (t : string) (chart : Chart)
      (before after : list (string * Chart)) (d : dict Chart) :
  Forall (fun e => fst e <> t) after ->
  dict_get t (assign d (before ++ (t, chart) :: after)) = ok chart.
Proof.
  intros H. unfold assign. rewrite fold_left_app. fold (assign d before).
  change (fold_left _ ((t, chart) :: after) (assign d before))
    with (assign (assign d before) ((t, chart) :: after)).
  rewrite assign_cons, assign_get_other by assumption.
  apply dict_get_set_same.
Qed.

End DictFacts.

Module CatalogMore.

Lemma of_nat_inj (n m : nat) : PyStr.of_nat n = PyStr.of_nat m -> n = m.
Proof.
  unfold PyStr.of_nat. intros H.
  assert (Hnil : forall k, Nat.to_uint k <> Decimal.Nil).
  { intros k Hk.
    pose proof (DecimalNat.Unsigned.to_of (Nat.to_uint k)) as E.
    rewrite DecimalNat.Unsigned.of_to, Hk in E. discriminate. }
  apply DecimalNat.Unsigned.to_uint_inj.
  apply (f_equal NilZero.uint_of_string) in H.
  rewrite !NilZero.usu in H by apply Hnil. now inversion H.
Qed.

Lemma append_inj (p s1 s2 : string) : p ++ s1 = p ++ s2 -> s1 = s2.
Proof.
  induction p as [|a p IH]; simpl; [auto|].
  intros H. inversion H. auto.
Qed.

(** The titles of a list of charts are determined. *)
Lemma titled_from_unique (n : nat) (cs : list Chart) (t1 t2 : list string) :
  List.length t1 = List.length cs -> List.length t2 = List.length cs ->
  titled_from n cs t1 -> titled_from n cs t2 -> t1 = t2.
Proof.
  intros L1 L2 H1 H2. apply nth_error_ext. intros i.
  destruct (nth_error cs i) as [chart|] eqn:Hi.
  - specialize (H1 i chart Hi). specialize (H2 i chart Hi).
    destruct (title chart) as [T|]; [|congruence].
    destruct H1 as (p1 & Hp1 & ->). destruct H2 as (p2 & Hp2 & ->).
    rewrite Hp1 in Hp2. now inversion Hp2.
  - apply nth_error_None in Hi.
    assert (E1 : nth_error t1 i = None) by (apply nth_error_None; lia).
    assert (E2 : nth_error t2 i = None) by (apply nth_error_None; lia).
    congruence.
Qed.

(** The catalog of a constructed parser, by the titles of its charts. *)
Lemma catalog_of_titles (wb : Workbook) (self : ExcelImageParser)
      (titles : list string) :
  __init__ wb = ok self ->
  List.length titles = List.length (discovered wb) ->
  titled_from 1 (discovered wb) titles ->
  _charts_map self = assign [] (combine titles (discovered wb)).
Proof.
  unfold __init__, rbind. intros H L T.
  destruct (sheets_loop wb (sheetnames wb) _) as [e|st] eqn:Hloop; [discriminate|].
  inversion H; subst; clear H. cbn [_charts_map].
  apply CatalogFacts.sheets_loop_spec in Hloop
    as (titles' & L' & T' & _ & _ & Hmap).
  fold (discovered wb) in L', T', Hmap. cbn in Hmap, T'.
  now rewrite (titled_from_unique 1 (discovered wb) titles titles' L L' T T').
Qed.

Lemma constructed (wb : Workbook) (self : ExcelImageParser) :
  __init__ wb = ok self ->
  exists titles,
    List.length titles = List.length (discovered wb)
    /\ titled_from 1 (discovered wb) titles
    /\ _charts_map self = assign [] (combine titles (discovered wb))
    /\ charts self = discovered wb.
Proof.
  unfold __init__, rbind. intros H.
  destruct (sheets_loop wb (sheetnames wb) _) as [e|st] eqn:Hloop; [discriminate|].
  inversion H; subst; clear H. cbn [_charts_map charts].
  apply CatalogFacts.sheets_loop_spec in Hloop
    as (titles & L & T & _ & Hc & Hmap).
  exists titles. auto.
Qed.

Lemma combine_split_at {A B} (l1 : list A) (l2 : list B) (i : nat) (a : A) (b : B) :
  nth_error l1 i = Some a -> nth_error l2 i = Some b ->
  combine l1 l2
  = (combine (firstn i l1) (firstn i l2)
     ++ (a, b) :: combine (skipn (S i) l1) (skipn (S i) l2))%list.
Proof.
  revert l2 i; induction l1 as [|x l1 IH]; intros [|y l2] [|i] H1 H2;
    try discriminate.
  - inversion H1; inversion H2; subst. reflexivity.
  - simpl in *. now rewrite (IH l2 i H1 H2).
Qed.

Lemma untitled_firstn_lt (cs : list Chart) (i j : nat) (chart : Chart) :
  nth_error cs i = Some chart -> title chart = None -> i < j ->
  untitled (firstn i cs) < untitled (firstn j cs).
Proof.
  revert i j; induction cs as [|c cs IH]; intros [|i] [|j] Hi Ht Hlt;
    try discriminate; try lia.
  - inversion Hi; subst. cbn [firstn].
    rewrite CatalogFacts.untitled_cons. unfold has_title. rewrite Ht.
    unfold untitled at 1. simpl. lia.
  - cbn [firstn]. rewrite !CatalogFacts.untitled_cons.
    simpl in Hi. specialize (IH i j Hi Ht). lia.
Qed.

(** The titles of a list of charts, chart by chart. *)
Lemma titled_from_nil (n : nat) : titled_from n [] [].
Proof. intros [|i] chart H; discriminate. Qed.

Lemma titled_from_cons (n : nat) (chart : Chart) (cs : list Chart)
      (t : string) (titles : list string) :
  titled_from n [chart] [t] ->
  titled_from (n + untitled [chart]) cs titles ->
  titled_from n (chart :: cs) (t :: titles).
Proof.
  intros H1 H2.
  now apply (CatalogFacts.titled_from_app n [chart] cs [t] titles).
Qed.

Lemma titled_from_untitled (n : nat) (chart : Chart) :
  title chart = None ->
  titled_from n [chart] ["Untitled " ++ PyStr.of_nat n].
Proof.
  intros Ht [|i] c Hc; [|now destruct i].
  inversion Hc; subst. rewrite Ht. cbn [firstn].
  unfold untitled. simpl. now rewrite Nat.add_0_r.
Qed.

Lemma titled_from_titled (n : nat) (chart : Chart) (T : Title) (par : Paragraph) :
  title chart = Some T -> paragraph0 T = ok par ->
  titled_from n [chart] [PyStr.join "" (map run_t (par_r par))].
Proof.
  intros Ht Hpar [|i] c Hc; [|now destruct i].
  inversion Hc; subst. rewrite Ht. now exists par.
Qed.

(** The loops go through when every title can be read. *)
Lemma charts_loop_total (cs : list Chart) :
  (forall chart T, In chart cs -> title chart = Some T ->
                   exists par, paragraph0 T = ok par) ->
  forall st, exists st', charts_loop cs st = ok st'.
Proof.
  induction cs as [|chart cs IH]; intros H st; [now exists st|].
  cbn [charts_loop]. unfold chart_title_of, rbind.
  destruct (title chart) as [T|] eqn:HT.
  - destruct (H chart T (or_introl eq_refl) HT) as [par ->].
    apply IH. intros c T' Hc. apply H. now right.
  - apply IH. intros c T' Hc. apply H. now right.
Qed.

Lemma sheets_loop_total (wb : Workbook) (sheet_names : list string) :
  Forall (fun n => sheet_in wb n = true) sheet_names ->
  (forall chart T,
      In chart (flat_map (fun n => match sheet wb n with
                                   | inr ws => _charts ws
                                   | inl _ => []
                                   end) sheet_names) ->
      title chart = Some T -> exists par, paragraph0 T = ok par) ->
  forall st, exists st', sheets_loop wb sheet_names st = ok st'.
Proof.
  induction 1 as [|n names Hn _ IH]; intros H st; [now exists st|].
  cbn [sheets_loop flat_map] in *. unfold rbind.
  destruct (Extractor.sheet_present _ _ Hn) as [ws Hws]. rewrite Hws in *.
  unfold ok at 1.
  destruct (charts_loop_total (_charts ws)) with (st := st) as [st1 Hst1].
  { intros c T Hc. apply H, in_or_app. now left. }
  rewrite Hst1. unfold ok at 1.
  apply IH. intros c T Hc. apply H, in_or_app. now right.
Qed.

Lemma sheetnames_present (wb : Workbook) :
  Forall (fun n => sheet_in wb n = true) (sheetnames wb).
Proof.
  apply Forall_forall. intros n Hn. unfold sheet_in.
  apply existsb_exists. exists n. split; [exact Hn | apply String.eqb_refl].
Qed.

(** The catalog maps a title to the last chart that was given it. *)
Lemma lookup_last (wb : Workbook) (self : ExcelImageParser) (titles : list string)
      (i : nat) (t : string) (chart : Chart) :
  __init__ wb = ok self ->
  List.length titles = List.length (discovered wb) ->
  titled_from 1 (discovered wb) titles ->
  nth_error titles i = Some t ->
  nth_error (discovered wb) i = Some chart ->
  (forall j, i < j -> nth_error titles j <> Some t) ->
  dict_get t (_charts_map self) = ok chart.
Proof.
  intros H L T Ht Hc Hlast.
  rewrite (catalog_of_titles wb self titles H L T).
  rewrite (combine_split_at _ _ _ _ _ Ht Hc).
  apply DictFacts.assign_get_last.
  apply Forall_forall. intros [k c] Hin Hk. cbn [fst] in Hk. subst k.
  apply in_combine_l in Hin. apply In_nth_error in Hin as [j Hj].
  rewrite nth_error_skipn in Hj. apply (Hlast (S i + j)); [lia | exact Hj].
Qed.

(** Two charts without title have different titles. *)
Lemma untitled_distinct (n : nat) (cs : list Chart) (titles : list string)
      (i j : nat) (ci cj : Chart) :
  titled_from n cs titles ->
  nth_error cs i = Some ci -> title ci = None ->
  nth_error cs j = Some cj -> title cj = None ->
  i < j ->
  nth_error titles i <> nth_error titles j.
Proof.
  intros T Hi Hti Hj Htj Hlt.
  pose proof (T i ci Hi) as Ei. pose proof (T j cj Hj) as Ej.
  rewrite Hti in Ei. rewrite Htj in Ej. rewrite Ei, Ej.
  intros E. inversion E as [E'].
  apply of_nat_inj in E'.
  pose proof (untitled_firstn_lt _ _ _ _ Hi Hti Hlt). lia.
Qed.

End CatalogMore.

(** X13. The catalog of a constructed parser has no key twice, each of its
    charts is a chart of the workbook, and it has at most as many entries
    as the workbook has charts. *)
Theorem X13_catalog_invariants (wb : Workbook) (self : ExcelImageParser) :
  __init__ wb = ok self ->
  NoDup (dict_keys (_charts_map self))
  /\ (forall t chart, dict_get t (_charts_map self) = ok chart ->
                      In chart (discovered wb))
  /\ List.length (_charts_map self) <= List.length (discovered wb).
Proof.
  intros H. destruct (CatalogMore.constructed _ _ H) as (titles & L & _ & -> & _).
  split; [|split].
  - apply DictFacts.assign_NoDup. constructor.
  - intros t chart Hget. apply DictFacts.assign_get in Hget as [Hin|Hget].
    + apply in_map_iff in Hin as ([k c] & <- & Hin).
      now apply in_combine_r in Hin.
    + discriminate.
  - pose proof (DictFacts.assign_length (combine titles (discovered wb)) []) as Hl.
    rewrite length_combine in Hl. simpl in Hl. lia.
Qed.

Lemma X13_catalog_invariants_witness :
  NoDup (dict_keys (_charts_map (Sample.parser_of_wb Sample.two_sheets)))
  /\ (forall t chart,
         dict_get t (_charts_map (Sample.parser_of_wb Sample.two_sheets)) = ok chart ->
         In chart (discovered Sample.two_sheets))
  /\ List.length (_charts_map (Sample.parser_of_wb Sample.two_sheets))
     <= List.length (discovered Sample.two_sheets).
Proof.
  apply (X13_catalog_invariants Sample.two_sheets
           (Sample.parser_of_wb Sample.two_sheets)).
  reflexivity.
Defined.

(** X14. Lookup by title after construction: the catalog maps a title to
    the last chart, in discovery order, that was given this title; an
    earlier chart with the same title is no longer in the catalog under
    it. *)
Theorem X14_title_maps_to_the_last_chart_with_it
        (wb : Workbook) (self : ExcelImageParser) (titles : list string)
        (i : nat) (t : string) (chart : Chart) :
  __init__ wb = ok self ->
  List.length titles = List.length (discovered wb) ->
  titled_from 1 (discovered wb) titles ->
  nth_error titles i = Some t ->
  nth_error (discovered wb) i = Some chart ->
  (forall j, i < j -> nth_error titles j <> Some t) ->
  dict_get t (_charts_map self) = ok chart.
Proof.
  apply CatalogMore.lookup_last.
Qed.

Lemma X14_title_maps_to_the_last_chart_with_it_witness :
  dict_get "Same" (_charts_map (Sample.parser_of_wb Fixture.same_title_wb))
  = ok Fixture.same_title_pie.
Proof.
  apply (X14_title_maps_to_the_last_chart_with_it
           Fixture.same_title_wb (Sample.parser_of_wb Fixture.same_title_wb)
           ["Same"; "Untitled 1"; "Same"] 2 "Same" Fixture.same_title_pie).
  - reflexivity.
  - reflexivity.
  - apply CatalogMore.titled_from_cons;
      [exact (CatalogMore.titled_from_titled 1 Fixture.same_title_bar _ _
                eq_refl eq_refl)|].
    apply CatalogMore.titled_from_cons;
      [exact (CatalogMore.titled_from_untitled 1 Sample.empty_pie eq_refl)|].
    apply CatalogMore.titled_from_cons;
      [exact (CatalogMore.titled_from_titled 2 Fixture.same_title_pie _ _
                eq_refl eq_refl)|].
    apply CatalogMore.titled_from_nil.
  - reflexivity.
  - reflexivity.
  - intros [|[|[|j]]] Hj; try lia; destruct j; discriminate.
Defined.

(** X15. A chart without title is found in the catalog under its
    ["Untitled n"], unless a later chart has this very text as its explicit
    title: the charts without title never take the place of one another. *)
Theorem X15_untitled_chart_is_kept_under_its_number
        (wb : Workbook) (self : ExcelImageParser) (titles : list string)
        (i : nat) (t : string) (chart : Chart) :
  __init__ wb = ok self ->
  List.length titles = List.length (discovered wb) ->
  titled_from 1 (discovered wb) titles ->
  nth_error (discovered wb) i = Some chart ->
  title chart = None ->
  nth_error titles i = Some t ->
  (forall j later, i < j -> nth_error (discovered wb) j = Some later ->
                   has_title later = true -> nth_error titles j <> Some t) ->
  dict_get t (_charts_map self) = ok chart.
Proof.
  intros H L T Hc Hnone Ht Htitled.
  apply (CatalogMore.lookup_last wb self titles i t chart H L T Ht Hc).
  intros j Hlt Hj.
  destruct (nth_error (discovered wb) j) as [later|] eqn:Hlater.
  - destruct (has_title later) eqn:Hhas.
    + now apply (Htitled j later).
    + unfold has_title in Hhas.
      destruct (title later) eqn:Hl; [discriminate|].
      apply (CatalogMore.untitled_distinct 1 _ _ i j chart later T Hc Hnone
                                           Hlater Hl Hlt).
      congruence.
  - apply nth_error_None in Hlater.
    assert (E : nth_error titles j = None) by (apply nth_error_None; lia).
    congruence.
Qed.

Lemma X15_untitled_chart_is_kept_under_its_number_witness :
  dict_get "Untitled 1" (_charts_map (Sample.parser_of_wb Sample.two_sheets))
  = ok Sample.empty_pie.
Proof.
  apply (X15_untitled_chart_is_kept_under_its_number
           Sample.two_sheets (Sample.parser_of_wb Sample.two_sheets)
           ["Untitled 1"; "Sales"; "Untitled 2"] 0 "Untitled 1" Sample.empty_pie).
  - reflexivity.
  - reflexivity.
  - apply CatalogMore.titled_from_cons;
      [exact (CatalogMore.titled_from_untitled 1 Sample.empty_pie eq_refl)|].
    apply CatalogMore.titled_from_cons;
      [exact (CatalogMore.titled_from_titled 2 Sample.one_series_chart _ _
                eq_refl eq_refl)|].
    apply CatalogMore.titled_from_cons;
      [exact (CatalogMore.titled_from_untitled 2 Sample.empty_pie eq_refl)|].
    apply CatalogMore.titled_from_nil.
  - reflexivity.
  - reflexivity.
  - reflexivity.
  - intros [|[|[|j]]] later Hlt Hj Hhas; try lia.
    + discriminate.
    + inversion Hj; subst. discriminate.
    + destruct j; discriminate.
Defined.

(** X16. The constructor succeeds exactly when the title of every titled
    chart of the workbook can be read: it has a text, the text is rich
    text, and the rich text has a paragraph.  A workbook without charts, or
    with untitled charts only, is always accepted. *)
Theorem X16_constructor_succeeds_iff_titles_are_readable (wb : Workbook) :
  (exists self, __init__ wb = ok self)
  <-> (forall chart T, In chart (discovered wb) -> title chart = Some T ->
                       exists par, paragraph0 T = ok par).
Proof.
  split.
  - intros [self H] chart T Hin HT.
    destruct (CatalogMore.constructed _ _ H) as (titles & _ & Ht & _).
    apply In_nth_error in Hin as [i Hi].
    specialize (Ht i chart Hi). rewrite HT in Ht.
    destruct Ht as (par & Hpar & _). now exists par.
  - intros H. unfold __init__, rbind.
    destruct (CatalogMore.sheets_loop_total wb (sheetnames wb)
                (CatalogMore.sheetnames_present wb) H
                {| untitled_index := 1; cat_charts := []; cat_map := [] |})
      as [st ->].
    eexists. reflexivity.
Qed.

(* ================================================================== *)
(** * Further properties of the sheets and of the input table *)
(* ================================================================== *)

Module InputsMore.

Lemma enumerate_app {A} (start : nat) (l1 l2 : list A) :
  enumerate start (l1 ++ l2)
  = (enumerate start l1 ++ enumerate (start + List.length l1) l2)%list.
Proof.
  revert start; induction l1 as [|x l1 IH]; intros start.
  - simpl. now rewrite Nat.add_0_r.
  - cbn [app List.length]. rewrite !Inputs.enumerate_cons, IH.
    now rewrite Nat.add_succ_r.
Qed.

Lemma enumerate_fst {A} (start : nat) (l : list A) :
  map fst (enumerate start l) = seq start (List.length l).
Proof.
  unfold enumerate. revert start; induction l as [|x l IH]; intros start;
    [reflexivity|].
  simpl. now rewrite IH.
Qed.

Lemma NoDup_map_filter {A B} (g : A -> B) (f : A -> bool) (l : list A) :
  NoDup (map g l) -> NoDup (map g (filter f l)).
Proof.
  induction l as [|a l IH]; intros H; [constructor|].
  inversion H as [|? ? Hnotin Hnodup]; subst. simpl.
  destruct (f a); [|now apply IH].
  simpl. constructor; [|now apply IH].
  intros Hin. apply Hnotin.
  apply in_map_iff in Hin as (a' & E & Hin').
  apply filter_In in Hin' as [Hin' _].
  apply in_map_iff. now exists a'.
Qed.

Lemma NoDup_map_injective {A B} (h : A -> B) (l : list A) :
  (forall x y, h x = h y -> x = y) -> NoDup l -> NoDup (map h l).
Proof.
  intros Hinj. induction 1 as [|a l Hnotin _ IH]; [constructor|].
  simpl. constructor; [|exact IH].
  intros Hin. apply in_map_iff in Hin as (a' & E & Hin').
  apply Hinj in E. now subst.
Qed.

Lemma get_input_cells_sheet (self : ExcelImageParser) (inputs : list InputCell) :
  get_input_cells self = ok inputs ->
  exists ws,
    sheet (workbook self) "viktor-input-sheet" = ok ws
    /\ inputs = map (fun ir => input_cell (fst ir) (snd ir))
                    (filter (fun ir => truthy (cell0 (snd ir)))
                            (enumerate 0 (iter_rows ws))).
Proof.
  unfold get_input_cells, rbind.
  destruct (sheet (workbook self) "viktor-input-sheet") as [e|ws]; [discriminate|].
  intros H; inversion H; subst. exists ws. split; [reflexivity|].
  now rewrite Inputs.input_rows_loop_spec.
Qed.

End InputsMore.

(** X17. The validation of the sheet names passes exactly when the
    workbook has both the sheet "viktor-input-sheet" and the sheet
    "viktor-output-sheet"; otherwise it raises the [UserError] "The sheet
    names are not correctly formatted." with one input violation, on the
    field "excel_file". *)
Theorem X17_validation_of_the_sheet_names (self : ExcelImageParser) :
  (validate_sheet_names self = inr tt
   <-> sheet_in (workbook self) "viktor-input-sheet" = true
       /\ sheet_in (workbook self) "viktor-output-sheet" = true)
  /\ (forall err, validate_sheet_names self = inl err ->
                  error_message err = "The sheet names are not correctly formatted."
                  /\ map fields (input_violations err) = [["excel_file"]]).
Proof.
  unfold validate_sheet_names. cbn [forallb].
  destruct (sheet_in (workbook self) "viktor-input-sheet");
    destruct (sheet_in (workbook self) "viktor-output-sheet"); cbn;
    (split; [split; [intros H; try discriminate; auto
                    | intros [H1 H2]; try discriminate; auto]
            | intros err H; inversion H; subst; auto]).
Qed.


(** X19. The records of the input table: each has a non-empty name, each
    has a unit that is the empty string or non-empty cell content, no two
    have the same key, and there are at most as many as the sheet has rows
    from row 2 on. *)
Theorem X19_input_records_are_well_formed
        (self : ExcelImageParser) (inputs : list InputCell) :
  get_input_cells self = ok inputs ->
  Forall (fun cell => truthy (name cell) = true
                      /\ (unit_ cell = VStr "" \/ truthy (unit_ cell) = true))
         inputs
  /\ NoDup (map key inputs)
  /\ exists ws, sheet (workbook self) "viktor-input-sheet" = ok ws
                /\ List.length inputs <= List.length (iter_rows ws).
Proof.
  intros H. apply InputsMore.get_input_cells_sheet in H as (ws & Hws & ->).
  split; [|split].
  - apply Forall_forall. intros cell Hin.
    apply in_map_iff in Hin as ([i row] & <- & Hin).
    apply filter_In in Hin as [_ Hname]. cbn in *. split; [exact Hname|].
    destruct (truthy (cell1 row)) eqn:E; auto.
  - rewrite map_map.
    match goal with
    | |- NoDup (map _ ?l) =>
        replace (map (fun x : nat * Row => key (input_cell (fst x) (snd x))) l)
          with (map (fun n => "input_" ++ PyStr.of_nat n) (map fst l))
          by (rewrite map_map; reflexivity)
    end.
    apply InputsMore.NoDup_map_injective.
    + intros x y E. apply CatalogMore.append_inj in E.
      now apply CatalogMore.of_nat_inj.
    + apply InputsMore.NoDup_map_filter.
      rewrite InputsMore.enumerate_fst. apply seq_NoDup.
  - exists ws. split; [exact Hws|].
    rewrite length_map.
    etransitivity; [apply filter_length_le|].
    unfold enumerate. rewrite length_combine, length_seq. lia.
Qed.

Lemma X19_input_records_are_well_formed_witness :
  Forall (fun cell => truthy (name cell) = true
                      /\ (unit_ cell = VStr "" \/ truthy (unit_ cell) = true))
         (Fixture.sample_inputs)
  /\ NoDup (map key Fixture.sample_inputs)
  /\ exists ws, sheet (workbook (Sample.parser_of [])) "viktor-input-sheet" = ok ws
                /\ List.length Fixture.sample_inputs
                   <= List.length (iter_rows ws).
Proof.
  apply (X19_input_records_are_well_formed (Sample.parser_of [])).
  reflexivity.
Defined.

(** X20. Rows added at the end of the input sheet leave the records of
    the rows before them as they are, keys included: the records of the
    longer sheet start with the records of the shorter one. *)
Theorem X20_rows_added_at_the_end_keep_the_keys
        (self self' : ExcelImageParser) (ws ws' : Worksheet) (more : list Row)
        (inputs : list InputCell) :
  sheet (workbook self) "viktor-input-sheet" = ok ws ->
  sheet (workbook self') "viktor-input-sheet" = ok ws' ->
  iter_rows ws' = (iter_rows ws ++ more)%list ->
  get_input_cells self = ok inputs ->
  exists added,
    get_input_cells self' = ok (inputs ++ added)%list
    /\ Forall (fun cell => exists i, List.length (iter_rows ws) <= i
                                    /\ key cell = "input_" ++ PyStr.of_nat i)
              added.
Proof.
  intros Hws Hws' Hrows H.
  apply InputsMore.get_input_cells_sheet in H as (ws0 & Hws0 & ->).
  rewrite Hws in Hws0. inversion Hws0; subst ws0.
  unfold get_input_cells, rbind. rewrite Hws'. unfold ok at 1.
  rewrite Inputs.input_rows_loop_spec, Hrows, InputsMore.enumerate_app.
  rewrite filter_app, map_app. cbn [app].
  eexists. split; [reflexivity|].
  apply Forall_forall. intros cell Hin.
  apply in_map_iff in Hin as ([i row] & <- & Hin).
  apply filter_In in Hin as [Hin _].
  apply (in_map fst) in Hin. rewrite InputsMore.enumerate_fst in Hin.
  apply in_seq in Hin. cbn in *. exists i. split; [lia | reflexivity].
Qed.

Lemma X20_rows_added_at_the_end_keep_the_keys_witness :
  exists added,
    get_input_cells Fixture.longer_parser
    = ok (Fixture.sample_inputs ++ added)%list
    /\ Forall (fun cell => exists i, List.length (iter_rows Sample.input_sheet) <= i
                                    /\ key cell = "input_" ++ PyStr.of_nat i)
              added.
Proof.
  apply (X20_rows_added_at_the_end_keep_the_keys
           (Sample.parser_of []) Fixture.longer_parser
           Sample.input_sheet Fixture.longer_input_sheet
           [Sample.text_row (VStr "depth")]); reflexivity.
Defined.

(* ================================================================== *)
(** * Properties of the list of figure titles *)
(* ================================================================== *)

Module TitlesFacts.

Lemma cleaned_char (c : ascii) :
  PyChar.isalnum c || Ascii.eqb c "_" = true ->
  identifier_char (PyChar.lower c) = true.
Proof.
  destruct c as [[] [] [] [] [] [] [] []]; vm_compute; intros H;
    reflexivity || discriminate.
Qed.

Lemma identifier_char_kept (c : ascii) :
  identifier_char c = true ->
  PyChar.isalnum c || Ascii.eqb c "_" = true /\ PyChar.lower c = c
  /\ c <> " "%char.
Proof.
  destruct c as [[] [] [] [] [] [] [] []]; vm_compute; intros H;
    (discriminate H || (repeat split; (reflexivity || discriminate))).
Qed.

Lemma join_empty_cons (a : string) (l : list string) :
  PyStr.join "" (a :: l) = a ++ PyStr.join "" l.
Proof.
  unfold PyStr.join. destruct l as [|b l]; simpl; [|reflexivity].
  induction a as [|c a IH]; simpl; [reflexivity | now rewrite <- IH].
Qed.

(** The cleaned name has identifier characters only. *)
Lemma clean_name_chars (x : string) :
  all_chars identifier_char (PyStr.join "" (clean_name x)) = true.
Proof.
  induction x as [|c x IH]; [reflexivity|].
  cbn [clean_name].
  destruct (PyChar.isalnum c || Ascii.eqb c "_") eqn:E; [|exact IH].
  rewrite join_empty_cons. cbn [String.append all_chars].
  now rewrite (cleaned_char c E), IH.
Qed.

(** A string of identifier characters is its own cleaned name. *)
Lemma clean_name_fixed (x : string) :
  all_chars identifier_char x = true ->
  PyStr.join "" (clean_name x) = x /\ PyStr.contains " " x = false.
Proof.
  induction x as [|c x IH]; [now split|].
  cbn [all_chars]. intros H. apply andb_true_iff in H as [Hc Hx].
  destruct (identifier_char_kept c Hc) as (Hkeep & Hlow & Hsp).
  destruct (IH Hx) as [IH1 IH2].
  cbn [clean_name]. rewrite Hkeep, join_empty_cons, Hlow, IH1. split.
  - reflexivity.
  - simpl. destruct (Ascii.eqb c " ") eqn:E; [|exact IH2].
    apply Ascii.eqb_eq in E. contradiction.
Qed.

Lemma figure_name_fixed (t : string) :
  all_chars identifier_char t = true -> figure_name t = t.
Proof.
  intros H. destruct (clean_name_fixed t H) as [Hjoin Hsp].
  unfold figure_name.
  rewrite (PyStrFacts.replace_absent " " " " "_" t);
    [exact Hjoin | reflexivity | exact Hsp].
Qed.

(** In a dict without double key every entry is found under its key. *)
Lemma dict_get_entry {V} (d : dict V) (k : string) (x : V) :
  NoDup (dict_keys d) -> In (k, x) d -> dict_get k d = ok x.
Proof.
  unfold dict_keys. induction d as [|[k' y] d IH]; intros Hnd Hin; [destruct Hin|].
  inversion Hnd as [|? ? Hnotin Hnd']; subst. simpl.
  destruct Hin as [E|Hin].
  - inversion E; subst. now rewrite String.eqb_refl.
  - destruct (String.eqb k' k) eqn:E; [|now apply IH].
    apply String.eqb_eq in E. subst k'.
    exfalso. apply Hnotin. apply in_map_iff. now exists (k, x).
Qed.

End TitlesFacts.

(** X21. The identifier that [get_figure_titles] makes of a chart title
    (of ASCII characters) has lower-case letters, digits and underscores
    only: spaces have become underscores, letters are lowered, every other
    character is dropped. *)
Theorem X21_concat_name_is_an_identifier (chart_title : string) :
  ascii_only chart_title = true ->
  all_chars identifier_char (figure_name chart_title) = true.
Proof. intros _. apply TitlesFacts.clean_name_chars. Qed.

Lemma X21_concat_name_is_an_identifier_witness :
  all_chars identifier_char (figure_name "Sales & Costs (2024)") = true.
Proof.
  apply (X21_concat_name_is_an_identifier "Sales & Costs (2024)"). reflexivity.
Defined.

(** X22. Making the identifier is idempotent, and a title (of ASCII
    characters) that already has lower-case letters, digits and
    underscores only is its own identifier. *)
Theorem X22_concat_name_is_stable (chart_title : string) :
  ascii_only chart_title = true ->
  figure_name (figure_name chart_title) = figure_name chart_title
  /\ (all_chars identifier_char chart_title = true ->
      figure_name chart_title = chart_title).
Proof.
  intros _. split.
  - apply TitlesFacts.figure_name_fixed, TitlesFacts.clean_name_chars.
  - apply TitlesFacts.figure_name_fixed.
Qed.

Lemma X22_concat_name_is_stable_witness :
  figure_name (figure_name "Sales & Costs (2024)")
  = figure_name "Sales & Costs (2024)"
  /\ (all_chars identifier_char "Sales & Costs (2024)" = true ->
      figure_name "Sales & Costs (2024)" = "Sales & Costs (2024)").
Proof.
  apply (X22_concat_name_is_stable "Sales & Costs (2024)"). reflexivity.
Defined.

(** X23. The list of figure titles of a constructed parser has one entry
    for each key of the catalog, in catalog order, charts of a type that is
    not allowed included; the type of an entry is the type tag of the chart
    that the catalog has under the name of the entry, a chart of the
    workbook; and for a name of ASCII characters the identifier of the
    entry has lower-case letters, digits and underscores only. *)
Theorem X23_figure_titles_list_the_catalog
        (wb : Workbook) (self : ExcelImageParser) :
  __init__ wb = ok self ->
  map title_name (get_figure_titles self) = dict_keys (_charts_map self)
  /\ forall entry, In entry (get_figure_titles self) ->
       (ascii_only (title_name entry) = true ->
        all_chars identifier_char (concat_name entry) = true)
       /\ exists chart,
            dict_get (title_name entry) (_charts_map self) = ok chart
            /\ figure_type entry = tagname chart
            /\ In chart (discovered wb).
Proof.
  intros H. destruct (CatalogMore.constructed _ _ H) as (titles & L & _ & E & _).
  assert (Hnd : NoDup (dict_keys (_charts_map self))).
  { rewrite E. apply DictFacts.assign_NoDup. constructor. }
  split.
  - unfold get_figure_titles, dict_keys. now rewrite map_map.
  - intros entry Hin. unfold get_figure_titles in Hin.
    apply in_map_iff in Hin as ([k chart] & <- & Hin). cbn.
    split; [intros _; apply TitlesFacts.clean_name_chars|]. exists chart.
    pose proof (TitlesFacts.dict_get_entry _ _ _ Hnd Hin) as Hget.
    split; [exact Hget|]. split; [reflexivity|].
    rewrite E in Hget. apply DictFacts.assign_get in Hget as [Hc|Hc].
    + apply in_map_iff in Hc as ([k' c] & <- & Hc).
      now apply in_combine_r in Hc.
    + discriminate.
Qed.

Lemma X23_figure_titles_list_the_catalog_witness :
  map title_name
      (get_figure_titles (Sample.parser_of [Sample.empty_pie; Sample.radar_chart]))
  = dict_keys (_charts_map (Sample.parser_of [Sample.empty_pie; Sample.radar_chart]))
  /\ forall entry,
       In entry
          (get_figure_titles (Sample.parser_of [Sample.empty_pie; Sample.radar_chart])) ->
       (ascii_only (title_name entry) = true ->
        all_chars identifier_char (concat_name entry) = true)
       /\ exists chart,
            dict_get (title_name entry)
                     (_charts_map (Sample.parser_of
                                     [Sample.empty_pie; Sample.radar_chart]))
            = ok chart
            /\ figure_type entry = tagname chart
            /\ In chart (discovered (Sample.wb_of [Sample.empty_pie; Sample.radar_chart])).
Proof.
  apply (X23_figure_titles_list_the_catalog
           (Sample.wb_of [Sample.empty_pie; Sample.radar_chart])
           (Sample.parser_of [Sample.empty_pie; Sample.radar_chart])).
  reflexivity.
Defined.

Example figure_titles_of_the_samples :
  get_figure_titles (Sample.parser_of [Sample.empty_pie; Sample.radar_chart])
  = [ {| title_name := "Untitled 1"; concat_name := "untitled_1";
         figure_type := "pieChart" |};
      {| title_name := "Radar"; concat_name := "radar";
         figure_type := "radarChart" |} ]
  /\ figure_name "Sales & Costs (2024)" = "sales__costs_2024".
Proof. split; reflexivity. Qed.

(* ================================================================== *)
(** * Properties of the evaluation and of the outputs *)
(* ================================================================== *)

Section EvaluationFacts.

Variable Obj : Type.
Variable type_str : Obj -> string.
Variable evaluate : Spreadsheet Obj -> result (Workbook * dict Obj).

Lemma dict_mem_get (k : string) (d : dict Obj) :
  dict_mem k d = true -> exists x, dict_get k d = ok x.
Proof.
  unfold dict_mem. induction d as [|[k' y] d IH]; simpl; [discriminate|].
  destruct (String.eqb k' k); [now exists y | exact IH].
Qed.

Lemma dict_get_error (k : string) (d : dict Obj) (e : exn) :
  dict_get k d = raise e -> e = KeyError k.
Proof.
  induction d as [|[k' y] d IH]; simpl.
  - intros H; now inversion H.
  - destruct (String.eqb k' k); [discriminate | exact IH].
Qed.

Lemma lookup_value_error (values : dict Obj) (k : value) (e : exn) :
  lookup_value values k = raise e -> exists arg, e = KeyError arg.
Proof.
  destruct k as [|s|z|b]; simpl; intros H;
    try (inversion H; eexists; reflexivity).
  apply dict_get_error in H. now exists s.
Qed.

(** The inputs made of the table of the step. *)
Lemma table_inputs_ok (table : list (dict Obj)) :
  Forall (fun row => dict_mem "values" row = true) table ->
  forall input_cells,
  List.length input_cells = List.length table ->
  exists values,
    Forall2 (fun row x => dict_get "values" row = ok x) table values
    /\ table_inputs table input_cells = ok (combine (map name input_cells) values).
Proof.
  induction 1 as [|row table Hrow _ IH]; intros [|cell cells] L; try discriminate.
  - exists []. split; [constructor | reflexivity].
  - destruct (dict_mem_get _ _ Hrow) as [x Hx].
    destruct (IH cells) as (values & Hall & Hin); [now inversion L|].
    exists (x :: values). split; [now constructor|].
    cbn [table_inputs]. unfold rbind. now rewrite Hx, Hin.
Qed.

(** The inputs made of the entries of the app. *)
Lemma app_inputs_ok (items : dict Obj) (input_cells : list InputCell) :
  Forall (fun cell => dict_mem (key cell) items = true) input_cells ->
  exists values,
    Forall2 (fun cell x => dict_get (key cell) items = ok x) input_cells values
    /\ app_inputs items input_cells = ok (combine (map name input_cells) values).
Proof.
  induction 1 as [|cell cells Hcell _ (values & Hall & Hin)].
  - exists []. split; [constructor | reflexivity].
  - destruct (dict_mem_get _ _ Hcell) as [x Hx].
    exists (x :: values). split; [now constructor|].
    cbn [app_inputs]. unfold rbind. now rewrite Hx, Hin.
Qed.

Lemma app_inputs_missing (items : dict Obj) (input_cells : list InputCell) :
  Exists (fun cell => dict_mem (key cell) items = false) input_cells ->
  exists k,
    In k (map key input_cells) /\ dict_mem k items = false
    /\ app_inputs items input_cells = raise (KeyError k).
Proof.
  induction input_cells as [|cell cells IH]; intros H; [inversion H|].
  cbn [app_inputs]. unfold rbind.
  destruct (dict_mem (key cell) items) eqn:E.
  - destruct (dict_mem_get _ _ E) as [x ->].
    inversion H as [? ? Hc|? ? Hc]; subst; [congruence|].
    destruct (IH Hc) as (k & Hin & Hk & ->).
    exists k. repeat split; [now right | exact Hk].
  - exists (key cell). rewrite (Round.dict_get_missing _ _ E).
    repeat split; [now left | exact E].
Qed.

(** X24. In the steps of the upload (no calculation given, not from the
    app), a table of parameters that has not as many rows as the input
    sheet has named rows is refused with the [UserError] "Please do not add
    or delete rows ...", before anything is evaluated; a round of
    [get_figures_from_excel_file] then raises this error and has no
    effect. *)
Theorem X24_changed_row_count_is_refused
        (settings : Settings Obj) (self : ExcelImageParser)
        (inputs : list InputCell) (log : list event) :
  has_spreadsheet_calculation settings = false ->
  from_app settings = false ->
  get_input_cells self = ok inputs ->
  List.length inputs <> List.length (fields_table (params settings)) ->
  get_evaluated_spreadsheet evaluate settings self
  = raise (UserError rows_changed_message)
  /\ get_figures_from_excel_file (evaluated_workbook evaluate settings) self log
     = (raise (UserError rows_changed_message), log).
Proof.
  intros Hcalc Happ Hin Hlen.
  assert (E : get_evaluated_spreadsheet evaluate settings self
              = raise (UserError rows_changed_message)).
  { unfold get_evaluated_spreadsheet, spreadsheet_to_evaluate, rbind.
    rewrite Hcalc, Hin, Happ. unfold ok.
    apply Nat.eqb_neq in Hlen. now rewrite Hlen. }
  split; [exact E|].
  unfold get_figures_from_excel_file, bind, lift, evaluated_workbook, rbind.
  now rewrite E.
Qed.

(** X25. In the steps of the upload, with as many rows in the table as
    named rows in the input sheet and a value in every row of the table, the
    spreadsheet is evaluated from the uploaded file with one input for each
    named row, in order: the name of the row with the value of the table
    row at the same position. *)
Theorem X25_inputs_of_the_steps
        (settings : Settings Obj) (self : ExcelImageParser)
        (inputs : list InputCell) :
  has_spreadsheet_calculation settings = false ->
  from_app settings = false ->
  get_input_cells self = ok inputs ->
  List.length inputs = List.length (fields_table (params settings)) ->
  Forall (fun row => dict_mem "values" row = true)
         (fields_table (params settings)) ->
  exists values,
    Forall2 (fun row x => dict_get "values" row = ok x)
            (fields_table (params settings)) values
    /\ get_evaluated_spreadsheet evaluate settings self
       = evaluate (OfFile (combine (map name inputs) values)).
Proof.
  intros Hcalc Happ Hin Hlen Hrows.
  destruct (table_inputs_ok _ Hrows inputs Hlen) as (values & Hall & Htab).
  exists values. split; [exact Hall|].
  unfold get_evaluated_spreadsheet, spreadsheet_to_evaluate, rbind.
  rewrite Hcalc, Hin, Happ. unfold ok.
  rewrite Hlen, Nat.eqb_refl. cbn [negb andb]. now rewrite Htab.
Qed.

(** X26. From the app, the value of each named row of the input sheet is
    the entry of the parameters under the key of the row; the number of
    rows of a table is not looked at.  When every key has an entry, the
    spreadsheet is evaluated from the file path with these inputs in row
    order; when a key has none, the call raises [KeyError] with such a
    key. *)
Theorem X26_inputs_of_the_app
        (settings : Settings Obj) (self : ExcelImageParser)
        (inputs : list InputCell) :
  has_spreadsheet_calculation settings = false ->
  from_app settings = true ->
  get_input_cells self = ok inputs ->
  (Forall (fun cell => dict_mem (key cell) (entries (params settings)) = true)
          inputs ->
   exists values,
     Forall2 (fun cell x => dict_get (key cell) (entries (params settings)) = ok x)
             inputs values
     /\ get_evaluated_spreadsheet evaluate settings self
        = evaluate (OfPath (combine (map name inputs) values)))
  /\ (Exists (fun cell => dict_mem (key cell) (entries (params settings)) = false)
             inputs ->
      exists k,
        In k (map key inputs)
        /\ dict_mem k (entries (params settings)) = false
        /\ get_evaluated_spreadsheet evaluate settings self = raise (KeyError k)).
Proof.
  intros Hcalc Happ Hin.
  assert (E : get_evaluated_spreadsheet evaluate settings self
              = match app_inputs (entries (params settings)) inputs with
                | inl e => inl e
                | inr l => evaluate (OfPath l)
                end).
  { unfold get_evaluated_spreadsheet, spreadsheet_to_evaluate, rbind.
    rewrite Hcalc, Hin, Happ. unfold ok. cbn [negb andb].
    now destruct (app_inputs _ inputs). }
  split.
  - intros Hall. destruct (app_inputs_ok _ _ Hall) as (values & H2 & Happ').
    exists values. split; [exact H2|]. now rewrite E, Happ'.
  - intros Hex. destruct (app_inputs_missing _ _ Hex) as (k & Hk & Hm & Happ').
    exists k. repeat split; try assumption. now rewrite E, Happ'.
Qed.


Lemma output_rows_loop_missing (values : dict Obj) (rows : list Row) :
  Exists (fun row => truthy (cell0 row) = true
                     /\ forall x, lookup_value values (cell0 row) <> ok x) rows ->
  forall (index : nat) (outputs : list (OutputCell Obj)),
  exists arg,
    output_rows_loop type_str values index rows outputs = raise (KeyError arg).
Proof.
  induction rows as [|row rows IH]; intros H index outputs; [inversion H|].
  cbn [output_rows_loop].
  destruct (truthy (cell0 row)) eqn:Hname.
  - unfold rbind.
    destruct (lookup_value values (cell0 row)) as [e|x] eqn:Hx.
    + destruct (lookup_value_error _ _ _ Hx) as [arg ->]. now exists arg.
    + inversion H as [? ? [_ Hno]|? ? Hrest]; subst.
      * exfalso. now apply (Hno x).
      * apply IH, Hrest.
  - inversion H as [? ? [Ht _]|? ? Hrest]; subst; [congruence|].
    apply IH, Hrest.
Qed.

(** X27. When the evaluation returns no values, [get_outputs] returns
    no record, whatever the rows of the output sheet are; the output sheet
    is looked up all the same, so that a workbook without it makes the call
    raise [KeyError]. *)
Theorem X27_outputs_without_values
        (settings : Settings Obj) (self : ExcelImageParser) (wb : Workbook) :
  get_evaluated_spreadsheet evaluate settings self = ok (wb, []) ->
  (sheet_in wb "viktor-output-sheet" = true ->
   get_outputs type_str evaluate settings self = ok [])
  /\ (sheet_in wb "viktor-output-sheet" = false ->
      get_outputs type_str evaluate settings self
      = raise (KeyError "Worksheet viktor-output-sheet does not exist.")).
Proof.
  intros E. unfold get_outputs, rbind. rewrite E. unfold ok. cbv beta iota.
  split.
  - intros H. destruct (Extractor.sheet_present _ _ H) as [ws Hws].
    rewrite Hws. reflexivity.
  - intros H. now rewrite (Extractor.sheet_missing _ _ H).
Qed.


(** X29. When the evaluation returns values and a named row of the output
    sheet has a name that is not among them, [get_outputs] raises
    [KeyError]: no record is returned, the rows with a value included. *)
Theorem X29_output_row_without_value_raises
        (settings : Settings Obj) (self : ExcelImageParser) (wb : Workbook)
        (values : dict Obj) (ws : Worksheet) :
  get_evaluated_spreadsheet evaluate settings self = ok (wb, values) ->
  values <> [] ->
  sheet wb "viktor-output-sheet" = ok ws ->
  Exists (fun row => truthy (cell0 row) = true
                     /\ forall x, lookup_value values (cell0 row) <> ok x)
         (iter_rows ws) ->
  exists arg,
    get_outputs type_str evaluate settings self = raise (KeyError arg).
Proof.
  intros E Hne Hws Hrows.
  destruct (output_rows_loop_missing values (iter_rows ws) Hrows 0 [])
    as (arg & Hloop).
  exists arg. unfold get_outputs, rbind. rewrite E. unfold ok at 1.
  cbv beta iota. rewrite Hws. unfold ok at 1.
  destruct values as [|v values]; [contradiction|].
  exact Hloop.
Qed.

End EvaluationFacts.

Lemma X24_changed_row_count_is_refused_witness :
  get_evaluated_spreadsheet (Fixture.evaluator Fixture.output_values)
    (Fixture.step_settings [VInt 4]) (Sample.parser_of [])
  = raise (UserError rows_changed_message)
  /\ get_figures_from_excel_file
       (evaluated_workbook (Fixture.evaluator Fixture.output_values)
                           (Fixture.step_settings [VInt 4]))
       (Sample.parser_of []) []
     = (raise (UserError rows_changed_message), []).
Proof.
  apply (X24_changed_row_count_is_refused
           value (Fixture.evaluator Fixture.output_values)
           (Fixture.step_settings [VInt 4]) (Sample.parser_of [])
           Fixture.sample_inputs []).
  - reflexivity.
  - reflexivity.
  - reflexivity.
  - cbn. lia.
Defined.

Lemma X25_inputs_of_the_steps_witness :
  exists values,
    Forall2 (fun row x => dict_get "values" row = ok x)
            (Fixture.table_of [VInt 4; VInt 5]) values
    /\ get_evaluated_spreadsheet (Fixture.evaluator Fixture.output_values)
         (Fixture.step_settings [VInt 4; VInt 5]) (Sample.parser_of [])
       = Fixture.evaluator Fixture.output_values
           (OfFile (combine (map name Fixture.sample_inputs) values)).
Proof.
  apply (X25_inputs_of_the_steps
           value (Fixture.evaluator Fixture.output_values)
           (Fixture.step_settings [VInt 4; VInt 5]) (Sample.parser_of [])
           Fixture.sample_inputs).
  - reflexivity.
  - reflexivity.
  - reflexivity.
  - reflexivity.
  - repeat constructor.
Defined.

Lemma X26_inputs_of_the_app_witness :
  exists values,
    Forall2 (fun cell x =>
               dict_get (key cell) [("input_0", VInt 4); ("input_2", VInt 5)]
               = ok x)
            Fixture.sample_inputs values
    /\ get_evaluated_spreadsheet (Fixture.evaluator Fixture.output_values)
         (Fixture.app_settings [("input_0", VInt 4); ("input_2", VInt 5)])
         (Sample.parser_of [])
       = Fixture.evaluator Fixture.output_values
           (OfPath (combine (map name Fixture.sample_inputs) values)).
Proof.
  apply (X26_inputs_of_the_app
           value (Fixture.evaluator Fixture.output_values)
           (Fixture.app_settings [("input_0", VInt 4); ("input_2", VInt 5)])
           (Sample.parser_of []) Fixture.sample_inputs).
  - reflexivity.
  - reflexivity.
  - reflexivity.
  - repeat constructor.
Defined.

Lemma X27_outputs_without_values_witness :
  (sheet_in Fixture.evaluated_wb "viktor-output-sheet" = true ->
   get_outputs Fixture.type_of (Fixture.evaluator [])
               (Fixture.app_settings [("input_0", VInt 4); ("input_2", VInt 5)])
               (Sample.parser_of [])
   = ok [])
  /\ (sheet_in Fixture.evaluated_wb "viktor-output-sheet" = false ->
      get_outputs Fixture.type_of (Fixture.evaluator [])
                  (Fixture.app_settings [("input_0", VInt 4); ("input_2", VInt 5)])
                  (Sample.parser_of [])
      = raise (KeyError "Worksheet viktor-output-sheet does not exist.")).
Proof.
  apply (X27_outputs_without_values
           value Fixture.type_of (Fixture.evaluator [])
           (Fixture.app_settings [("input_0", VInt 4); ("input_2", VInt 5)])
           (Sample.parser_of []) Fixture.evaluated_wb).
  reflexivity.
Defined.


Lemma X29_output_row_without_value_raises_witness :
  exists arg,
    get_outputs Fixture.type_of (Fixture.evaluator [("area", VInt 12)])
                (Fixture.app_settings [("input_0", VInt 4); ("input_2", VInt 5)])
                (Sample.parser_of [])
    = raise (KeyError arg).
Proof.
  apply (X29_output_row_without_value_raises
           value Fixture.type_of (Fixture.evaluator [("area", VInt 12)])
           (Fixture.app_settings [("input_0", VInt 4); ("input_2", VInt 5)])
           (Sample.parser_of []) Fixture.evaluated_wb [("area", VInt 12)]
           Fixture.output_sheet).
  - reflexivity.
  - discriminate.
  - reflexivity.
  - apply Exists_cons_tl, Exists_cons_tl, Exists_cons_hd.
    split; [reflexivity | intros x; discriminate].
Defined.

Example outputs_of_the_samples :
  option_map (map (fun o => (out_key o, out_value o, out_type o)))
    (match get_outputs Fixture.type_of (Fixture.evaluator Fixture.output_values)
             (Fixture.app_settings [("input_0", VInt 4); ("input_2", VInt 5)])
             (Sample.parser_of []) with
     | inr outputs => Some outputs
     | inl _ => None
     end)
  = Some [("output_0", VInt 12, "<class 'int'>");
          ("output_2", VInt 24, "<class 'int'>")].
Proof. reflexivity. Qed.
